(** * Search-query construction of the MIG database layer

    A shallow embedding of [database/searches.go]: the [SearchParameters]
    filter record, its query-string rendering, the identifier range
    resolver [makeIDsFromParams], and the four routines that assemble the
    parameterised SQL text and its bound values ([SearchCommands],
    [SearchActions], [SearchAgents], [SearchInvestigators]).

    Go strings are byte strings: they are modelled by [string], whose
    characters are bytes.  [int] counters stay far below any wrap-around
    (at most twenty-one parameters are ever bound), so they are plain [Z]. *)

From Stdlib Require Import ZArith List Bool Lia.
From Stdlib Require Import Strings.String Strings.Ascii.
From Stdlib Require Import Numbers.DecimalString.
From Stdlib Require Import Floats.SpecFloat.
Import ListNotations.

Local Open Scope string_scope.
Local Open Scope Z_scope.

(** ** Text helpers *)

Module Text.

(** [%d] of a Go [int]. *)
Definition itoa (n : Z) : string := NilZero.string_of_int (Z.to_int n).

Definition is_digit (c : ascii) : bool :=
  let n := N_of_ascii c in ((48 <=? n) && (n <=? 57))%N.

Definition digit_val (c : ascii) : Z := Z.of_N (N_of_ascii c) - 48.

(** Is [p] a prefix of [s]? *)
Fixpoint starts_with (p s : string) : bool :=
  match p, s with
  | EmptyString, _ => true
  | String a p', String b s' => if Ascii.eqb a b then starts_with p' s' else false
  | String _ _, EmptyString => false
  end.

Fixpoint drop (n : nat) (s : string) : string :=
  match n, s with
  | O, _ => s
  | S n', String _ s' => drop n' s'
  | S _, EmptyString => EmptyString
  end.

(** Does [pat] occur somewhere in [s]? *)
Fixpoint mentions (pat s : string) : bool :=
  if starts_with pat s then true
  else match s with
       | EmptyString => false
       | String _ s' => mentions pat s'
       end.

(** The text that follows the first occurrence of [sep]
    (empty when [sep] does not occur). *)
Fixpoint after_first (sep s : string) : string :=
  if starts_with sep s then drop (String.length sep) s
  else match s with
       | EmptyString => EmptyString
       | String _ s' => after_first sep s'
       end.

(** The text that precedes the first occurrence of [sep]
    (all of [s] when [sep] does not occur). *)
Fixpoint before_first (sep s : string) : string :=
  if starts_with sep s then EmptyString
  else match s with
       | EmptyString => EmptyString
       | String c s' => String c (before_first sep s')
       end.

(** Left-pad the decimal rendering of a non-negative number with zeros. *)
Fixpoint zeros (n : nat) : string :=
  match n with O => "" | S n' => "0" ++ zeros n' end.

Definition pad (width : nat) (n : Z) : string :=
  let body := itoa (Z.abs n) in
  (if n <? 0 then "-" else "") ++
  zeros (width - String.length body) ++ body.

End Text.

(** ** Go's [time] package, as far as the searches use it *)

Module GoTime.

(** A [time.Duration] is a count of nanoseconds. *)
Definition Duration := Z.
Definition Nanosecond : Duration := 1.
Definition Second : Duration := 1000000000.
Definition Hour : Duration := 3600 * Second.

(** A [time.Time] is an instant together with the zone it is displayed
    in; [instant] counts nanoseconds since the Unix epoch and [zone] is
    the offset east of UTC, in seconds, in effect at that instant. *)
Record Time := mkTime { instant : Z; zone : Z }.

Definition Add (t : Time) (d : Duration) : Time :=
  {| instant := instant t + d; zone := zone t |}.
Definition UTC (t : Time) : Time := {| instant := instant t; zone := 0 |}.
Definition Before (t u : Time) : bool := instant t <? instant u.
Definition After (t u : Time) : bool := instant u <? instant t.

(** Civil date of a day number counted from 1970-01-01
    (proleptic Gregorian calendar). *)
Definition civil (days : Z) : Z * Z * Z :=
  let z := days + 719468 in
  let era := z / 146097 in
  let doe := z - era * 146097 in
  let yoe := (doe - doe / 1460 + doe / 36524 - doe / 146096) / 365 in
  let doy := doe - (365 * yoe + yoe / 4 - yoe / 100) in
  let mp := (5 * doy + 2) / 153 in
  let d := doy - (153 * mp + 2) / 5 + 1 in
  let m := if mp <? 10 then mp + 3 else mp - 9 in
  let y := yoe + era * 400 + (if m <=? 2 then 1 else 0) in
  (y, m, d).

(** [t.Format(time.RFC3339)], layout ["2006-01-02T15:04:05Z07:00"]:
    the wall clock of [t] in its zone, whole seconds, then [Z] for a zero
    offset and [+hh:mm] or [-hh:mm] otherwise. *)
Definition FormatRFC3339 (t : Time) : string :=
  let secs := instant t / Second + zone t in
  let '(y, m, d) := civil (secs / 86400) in
  let sod := secs mod 86400 in
  let off := Z.quot (zone t) 60 in
  Text.pad 4 y ++ "-" ++ Text.pad 2 m ++ "-" ++ Text.pad 2 d ++ "T" ++
  Text.pad 2 (sod / 3600) ++ ":" ++ Text.pad 2 (sod mod 3600 / 60) ++ ":" ++
  Text.pad 2 (sod mod 60) ++
  (if zone t =? 0 then "Z"
   else (if off <? 0 then "-" else "+") ++
        Text.pad 2 (Z.abs off / 60) ++ ":" ++ Text.pad 2 (Z.abs off mod 60)).

End GoTime.

(** ** Go's [float64] *)

Module Float64.

(** IEEE 754 binary64 values: 53 bits of precision, exponents up to 1024.
    A finite value [S754_finite s m e] denotes [(-1)^s * m * 2^e]. *)
Definition float64 := spec_float.
Definition prec : Z := 53.
Definition emax : Z := 1024.

(** The float nearest to an integer (ties to even). *)
Definition of_Z (n : Z) : float64 := binary_normalize prec emax n 0 false.

(** Go's [==] on floats. *)
Definition eqb (x y : float64) : bool := SFeqb x y.

(** Round a non-negative dyadic [m * 2^e] to the nearest integer,
    ties to even. *)
Definition round_half_even (m : positive) (e : Z) : Z :=
  if 0 <=? e then Z.shiftl (Zpos m) e
  else
    let k := - e in
    let q := Z.shiftr (Zpos m) k in
    let r := Zpos m - Z.shiftl q k in
    let half := Z.shiftl 1 (k - 1) in
    if (half <? r) || ((half =? r) && Z.odd q) then q + 1 else q.

(** [fmt.Sprintf("%.0f", x)]. *)
Definition fmt_f0 (x : float64) : string :=
  match x with
  | S754_nan => "NaN"
  | S754_infinity false => "+Inf"
  | S754_infinity true => "-Inf"
  | S754_zero s => (if s then "-" else "") ++ "0"
  | S754_finite s m e =>
      (if s then "-" else "") ++ Text.itoa (round_half_even m e)
  end.

(** The integer part of a finite value, truncated toward zero. *)
Definition trunc (x : float64) : option Z :=
  match x with
  | S754_zero _ => Some 0
  | S754_finite s m e =>
      let a := if 0 <=? e then Z.shiftl (Zpos m) e else Z.shiftr (Zpos m) (- e) in
      Some (if s then - a else a)
  | _ => None
  end.

End Float64.

(** ** The search parameters and their rendering *)

Module Searches.

Import GoTime Float64 Text.

(** The sentinels: [inf] is the three-byte UTF-8 encoding of the infinity
    sign (no identifier constraint), [pct] the SQL wildcard (no pattern
    constraint). *)
Definition inf : string := "∞".
Definition pct : string := "%".

Definition nl : string := String (ascii_of_nat 10) "".
Definition tab : string := String (ascii_of_nat 9) "".
Definition tab2 : string := tab ++ tab.
Definition tab3 : string := tab ++ tab ++ tab.
Definition tab6 : string := tab3 ++ tab3.

(** [SearchParameters] contains fields used to perform database searches.
    ([Type_] is the Go field [Type].) *)
Record SearchParameters := mkSearchParameters {
  ActionID : string;
  ActionName : string;
  After : Time;
  AgentID : string;
  AgentName : string;
  Before : Time;
  CommandID : string;
  FoundAnything : bool;
  InvestigatorID : string;
  InvestigatorName : string;
  Limit : float64;
  Offset : float64;
  Report : string;
  Status : string;
  Target : string;
  ThreatFamily : string;
  Type_ : string
}.

(** The source documents this constant as ten years. *)
Definition defaultSearchPeriod : Duration := 39600 * Hour.

(** [NewSearchParameters] initializes search parameters.  [now1] and [now2]
    are the results of its two successive calls to [time.Now()]; the fields
    it does not assign keep Go's zero values. *)
Definition NewSearchParameters (now1 now2 : Time) : SearchParameters :=
  {| Before := UTC (Add now1 defaultSearchPeriod);
     After := UTC (Add now2 (- defaultSearchPeriod));
     AgentName := "%";
     AgentID := inf;
     ActionName := "%";
     ActionID := inf;
     CommandID := inf;
     ThreatFamily := "%";
     Status := "%";
     Limit := of_Z 100;
     Offset := of_Z 0;
     InvestigatorID := inf;
     InvestigatorName := "%";
     Type_ := "action";
     FoundAnything := false;
     Report := "";
     Target := "" |}.

(** Go's [!=] on strings. *)
Definition neq (a b : string) : bool := negb (String.eqb a b).

(** [String()] returns a query string with the current search parameters
    (the method [SearchParameters.String] of the source). *)
Definition SearchParameters_String (p : SearchParameters) : string :=
  let query := "type=" ++ Type_ p ++ "&after=" ++ FormatRFC3339 (After p)
               ++ "&before=" ++ FormatRFC3339 (Before p) in
  let query := if neq (AgentName p) "%" then query ++ "&agentname=" ++ AgentName p else query in
  let query := if neq (AgentID p) inf then query ++ "&agentid=" ++ AgentID p else query in
  let query := if neq (ActionName p) "%" then query ++ "&actionname=" ++ ActionName p else query in
  let query := if neq (ActionID p) inf then query ++ "&actionid=" ++ ActionID p else query in
  let query := if neq (CommandID p) inf then query ++ "&commandid=" ++ CommandID p else query in
  let query := if neq (InvestigatorID p) inf then query ++ "&investigatorid=" ++ InvestigatorID p else query in
  let query := if neq (InvestigatorName p) "%" then query ++ "&investigatorname=" ++ InvestigatorName p else query in
  let query := if neq (ThreatFamily p) "%" then query ++ "&threatfamily=" ++ ThreatFamily p else query in
  let query := if neq (Status p) "%" then query ++ "&status=" ++ Status p else query in
  let query := query ++ "&limit=" ++ fmt_f0 (Limit p) in
  let query := if negb (Float64.eqb (Offset p) (of_Z 0)) then query ++ "&offset=" ++ fmt_f0 (Offset p) else query in
  query.

(** ** The identifier range resolver *)

Record IDs := mkIDs {
  minActionID : float64; maxActionID : float64;
  minCommandID : float64; maxCommandID : float64;
  minAgentID : float64; maxAgentID : float64;
  minInvID : float64; maxInvID : float64
}.

(** 2^53-1 *)
Definition MAXFLOAT64 : float64 := of_Z 9007199254740991.

(** The two failures of [strconv.ParseFloat]. *)
Inductive NumError := ErrSyntax | ErrRange.

Definition zero : float64 := of_Z 0.

Definition set_minActionID v ids := mkIDs v (maxActionID ids) (minCommandID ids) (maxCommandID ids) (minAgentID ids) (maxAgentID ids) (minInvID ids) (maxInvID ids).
Definition set_maxActionID v ids := mkIDs (minActionID ids) v (minCommandID ids) (maxCommandID ids) (minAgentID ids) (maxAgentID ids) (minInvID ids) (maxInvID ids).
Definition set_minCommandID v ids := mkIDs (minActionID ids) (maxActionID ids) v (maxCommandID ids) (minAgentID ids) (maxAgentID ids) (minInvID ids) (maxInvID ids).
Definition set_maxCommandID v ids := mkIDs (minActionID ids) (maxActionID ids) (minCommandID ids) v (minAgentID ids) (maxAgentID ids) (minInvID ids) (maxInvID ids).
Definition set_minAgentID v ids := mkIDs (minActionID ids) (maxActionID ids) (minCommandID ids) (maxCommandID ids) v (maxAgentID ids) (minInvID ids) (maxInvID ids).
Definition set_maxAgentID v ids := mkIDs (minActionID ids) (maxActionID ids) (minCommandID ids) (maxCommandID ids) (minAgentID ids) v (minInvID ids) (maxInvID ids).
Definition set_minInvID v ids := mkIDs (minActionID ids) (maxActionID ids) (minCommandID ids) (maxCommandID ids) (minAgentID ids) (maxAgentID ids) v (maxInvID ids).
Definition set_maxInvID v ids := mkIDs (minActionID ids) (maxActionID ids) (minCommandID ids) (maxCommandID ids) (minAgentID ids) (maxAgentID ids) (minInvID ids) v.

(** The zero value of [IDs], which the named result starts from. *)
Definition zeroIDs : IDs := mkIDs zero zero zero zero zero zero zero zero.

Section Resolver.

(** [strconv.ParseFloat(s, 64)]: the parsed value and the error, if any
    (Go returns both). *)
Variable ParseFloat : string -> float64 * option NumError.

(** One stanza of [makeIDsFromParams]: the default range, then, for a
    filter that is not the sentinel, the parsed value as both bounds; a
    parse error returns at once, with the lower bound already
    overwritten. *)
Definition resolve (filter : string) (set_min set_max : float64 -> IDs -> IDs)
    (ids : IDs) (rest : IDs -> IDs * option NumError) : IDs * option NumError :=
  let ids := set_max MAXFLOAT64 (set_min zero ids) in
  if neq filter inf then
    let (v, err) := ParseFloat filter in
    let ids := set_min v ids in
    match err with
    | Some e => (ids, Some e)
    | None => rest (set_max v ids)
    end
  else rest ids.

Definition makeIDsFromParams (p : SearchParameters) : IDs * option NumError :=
  resolve (ActionID p) set_minActionID set_maxActionID zeroIDs (fun ids =>
  resolve (CommandID p) set_minCommandID set_maxCommandID ids (fun ids =>
  resolve (AgentID p) set_minAgentID set_maxAgentID ids (fun ids =>
  resolve (InvestigatorID p) set_minInvID set_maxInvID ids (fun ids =>
  (ids, None))))).

End Resolver.

(** ** Assembling a parameterised query *)

(** A value handed to the database driver for a positional parameter. *)
Inductive Val :=
| VTime (t : Time)
| VFloat (x : float64)
| VString (s : string)
| VBool (b : bool)
| VUint64 (n : Z).

(** The join switches of the search routines. *)
Inductive JoinFlag := joinAction | joinAgent | joinCommand | joinInvestigator.

Record Joins := mkJoins {
  j_action : bool; j_agent : bool; j_command : bool; j_investigator : bool
}.

Definition no_joins : Joins := mkJoins false false false false.

Definition raise (j : Joins) (f : JoinFlag) : Joins :=
  match f with
  | joinAction => mkJoins true (j_agent j) (j_command j) (j_investigator j)
  | joinAgent => mkJoins (j_action j) true (j_command j) (j_investigator j)
  | joinCommand => mkJoins (j_action j) (j_agent j) true (j_investigator j)
  | joinInvestigator => mkJoins (j_action j) (j_agent j) (j_command j) true
  end.

(** The variables a search routine updates while it walks through its
    filters: the predicate text written so far, the values bound so far,
    the parameter counter [valctr] and the join switches.  The type [V] of
    bound values is [Val] in the program. *)
Record Builder (V : Type) := mkBuilder {
  b_text : string;
  b_vals : list V;
  b_valctr : Z;
  b_joins : Joins
}.
Arguments mkBuilder {V}.
Arguments b_text {V}.
Arguments b_vals {V}.
Arguments b_valctr {V}.
Arguments b_joins {V}.

(** One [if] block of a search routine: its condition, whether it starts
    with [if valctr > 0 { ... += " AND " }], its [fmt.Sprintf] template as
    a function of [valctr], the values it appends, the amount it adds to
    [valctr], and the join switches it sets. *)
Record Clause (V : Type) := mkClause {
  c_if : bool;
  c_and : bool;
  c_fmt : Z -> string;
  c_vals : list V;
  c_slots : Z;
  c_joins : list JoinFlag
}.
Arguments mkClause {V}.
Arguments c_if {V}.
Arguments c_and {V}.
Arguments c_fmt {V}.
Arguments c_vals {V}.
Arguments c_slots {V}.
Arguments c_joins {V}.

Definition emit {V} (b : Builder V) (c : Clause V) : Builder V :=
  if c_if c then
    let text := if c_and c && (0 <? b_valctr b) then b_text b ++ " AND " else b_text b in
    {| b_text := text ++ c_fmt c (b_valctr b);
       b_vals := b_vals b ++ c_vals c;
       b_valctr := b_valctr b + c_slots c;
       b_joins := fold_left raise (c_joins c) (b_joins b) |}
  else b.

Definition emit_all {V} (cs : list (Clause V)) (b : Builder V) : Builder V :=
  fold_left emit cs b.

(** Templates with one, two and four [%d] verbs, fed with
    [valctr+1], [valctr+2], ... *)
Definition fmt1 (a z : string) (n : Z) : string := a ++ itoa (n + 1) ++ z.
Definition fmt2 (a b z : string) (n : Z) : string :=
  a ++ itoa (n + 1) ++ b ++ itoa (n + 2) ++ z.
Definition fmt4 (a b c d z : string) (n : Z) : string :=
  a ++ itoa (n + 1) ++ b ++ itoa (n + 2) ++ c ++ itoa (n + 3) ++ d ++ itoa (n + 4) ++ z.

(** The block of the [Before] bound, which has no [AND] guard, and the
    shape shared by all later blocks. *)
Definition first_clause {V} (cond : bool) (f : Z -> string) (vs : list V) (k : Z) : Clause V :=
  mkClause cond false f vs k [].
Definition and_clause {V} (cond : bool) (f : Z -> string) (vs : list V) (k : Z)
    (js : list JoinFlag) : Clause V :=
  mkClause cond true f vs k js.

(** An error of a search routine: the filter that did not parse, or
    whatever the store reported while the statement was prepared, run and
    its rows read. *)
Inductive SearchError (E : Type) :=
| BadFilter (e : NumError)
| StoreFailure (e : E).
Arguments BadFilter {E}.
Arguments StoreFailure {E}.

(** What a routine returns (the records and the error), together with the
    statement it built and handed to [db.c.Prepare] on the way: none when
    it returned before.  The lookups made while the rows are read are
    calls of other methods of [DB], not statements of the routine; they
    are not listed here (module [Hydration] traces them). *)
Record Outcome (R E : Type) := mkOutcome {
  records : list R;
  failure : option (SearchError E);
  issued : list (string * list Val)
}.
Arguments mkOutcome {R E}.
Arguments records {R E}.
Arguments failure {R E}.
Arguments issued {R E}.

Section Queries.

(** [mig.StatusSuccess], a string constant of the [mig] package. *)
Variable StatusSuccess : string.

(** Go leaves [uint64(x)] implementation-dependent when [x] has no [uint64]
    value; [uint64_other] is what the platform yields then. *)
Variable uint64_other : float64 -> Z.

Definition uint64 (x : float64) : Z :=
  match trunc x with
  | Some n => if (0 <=? n) && (n <? 2 ^ 64) then n else uint64_other x
  | None => uint64_other x
  end.

(** The two tests on the time window; [now1] and [now2] are the results of
    the two [time.Now()] calls. *)
Definition before_set (p : SearchParameters) (now1 : Time) : bool :=
  GoTime.Before (Before p) (Add now1 (defaultSearchPeriod - Hour)).
Definition after_set (p : SearchParameters) (now2 : Time) : bool :=
  GoTime.After (After p) (Add now2 (- (defaultSearchPeriod - Hour))).

(** *** SearchCommands *)

Definition SearchCommands_select : string :=
  "SELECT commands.id, commands.status, commands.results, commands.starttime, commands.finishtime," ++ nl ++
  tab3 ++ "actions.id, actions.name, actions.target, actions.description, actions.threat," ++ nl ++
  tab3 ++ "actions.operations, actions.validfrom, actions.expireafter, actions.pgpsignatures," ++ nl ++
  tab3 ++ "actions.syntaxversion, agents.id, agents.name, agents.version, agents.tags, agents.environment" ++ nl ++
  tab2 ++ "FROM" ++ tab ++ "commands" ++ nl ++
  tab3 ++ "INNER JOIN actions ON ( commands.actionid = actions.id)" ++ nl ++
  tab3 ++ "INNER JOIN signatures ON ( actions.id = signatures.actionid )" ++ nl ++
  tab3 ++ "INNER JOIN investigators ON ( signatures.investigatorid = investigators.id )" ++ nl ++
  tab3 ++ "INNER JOIN agents ON ( commands.agentid = agents.id )" ++ nl ++
  tab2 ++ "WHERE ".

(** The template of the found-anything clause. *)
Definition SearchCommands_found : Z -> string :=
  fmt4 "commands.status = $"
       (nl ++ tab3 ++ "AND commands.id IN (" ++ tab ++
        "SELECT commands.id FROM commands, actions, json_array_elements(commands.results) as r" ++ nl ++
        tab6 ++ "WHERE commands.actionid=actions.id" ++ nl ++
        tab6 ++ "AND actions.id >= $")
       " AND actions.id <= $"
       (nl ++ tab6 ++ "AND r#>>'{foundanything}' = $")
       ") ".

Definition SearchCommands_clauses (p : SearchParameters) (ids : IDs) (doFoundAnything : bool)
    (now1 now2 : Time) : list (Clause Val) :=
  [ first_clause (before_set p now1)
      (fmt1 "commands.starttime <= $" " ") [VTime (Before p)] 1;
    and_clause (after_set p now2)
      (fmt1 "commands.starttime >= $" " ") [VTime (After p)] 1 [];
    and_clause (neq (CommandID p) inf)
      (fmt2 "commands.id >= $" " AND commands.id <= $" "")
      [VFloat (minCommandID ids); VFloat (maxCommandID ids)] 2 [];
    and_clause (neq (Status p) "%")
      (fmt1 "commands.status ILIKE $" "") [VString (Status p)] 1 [];
    and_clause (neq (ActionID p) inf)
      (fmt2 "actions.id >= $" " AND actions.id <= $" "")
      [VFloat (minActionID ids); VFloat (maxActionID ids)] 2 [];
    and_clause (neq (ActionName p) "%")
      (fmt1 "actions.name ILIKE $" "") [VString (ActionName p)] 1 [];
    and_clause (neq (InvestigatorID p) inf)
      (fmt2 "investigators.id >= $" " AND investigators.id <= $" "")
      [VFloat (minInvID ids); VFloat (maxInvID ids)] 2 [];
    and_clause (neq (InvestigatorName p) "%")
      (fmt1 "investigators.name ILIKE $" "") [VString (InvestigatorName p)] 1 [];
    and_clause (neq (AgentID p) inf)
      (fmt2 "agents.id >= $" " AND agents.id <= $" "")
      [VFloat (minAgentID ids); VFloat (maxAgentID ids)] 2 [];
    and_clause (neq (AgentName p) "%")
      (fmt1 "agents.name ILIKE $" "") [VString (AgentName p)] 1 [];
    and_clause doFoundAnything SearchCommands_found
      [VString StatusSuccess; VFloat (minActionID ids); VFloat (maxActionID ids);
       VBool (FoundAnything p)] 4 [];
    and_clause (neq (ThreatFamily p) "%")
      (fmt1 "actions.threat#>>'{family}' ILIKE $" " ") [VString (ThreatFamily p)] 1 [] ].

(** The query text and the bound values that [SearchCommands] prepares and
    runs. *)
Definition SearchCommands_assemble {V} (cs : list (Clause V)) (limit offset : V)
    : string * list V :=
  let b := emit_all cs
             (mkBuilder SearchCommands_select [] 0 no_joins) in
  (b_text b ++
     fmt2 (" GROUP BY commands.id, actions.id, agents.id" ++ nl ++
           tab2 ++ "ORDER BY commands.starttime DESC LIMIT $") " OFFSET $" ";" (b_valctr b),
   (b_vals b ++ [limit; offset])%list).

Definition SearchCommands_query (p : SearchParameters) (ids : IDs) (doFoundAnything : bool)
    (now1 now2 : Time) : string * list Val :=
  SearchCommands_assemble (SearchCommands_clauses p ids doFoundAnything now1 now2)
    (VUint64 (uint64 (Limit p))) (VUint64 (uint64 (Offset p))).

(** *** SearchActions *)

Definition SearchActions_columns : string :=
  "actions.id, actions.name, actions.target,  actions.description, actions.threat, actions.operations," ++ nl ++
  tab2 ++ "actions.validfrom, actions.expireafter, actions.starttime, actions.finishtime, actions.lastupdatetime," ++ nl ++
  tab2 ++ "actions.status, actions.pgpsignatures, actions.syntaxversion ".

Definition SearchActions_clauses (p : SearchParameters) (ids : IDs)
    (now1 now2 : Time) : list (Clause Val) :=
  [ first_clause (before_set p now1)
      (fmt1 "actions.expireafter <= $" " ") [VTime (Before p)] 1;
    and_clause (after_set p now2)
      (fmt1 "actions.validfrom >= $" " ") [VTime (After p)] 1 [];
    and_clause (neq (Status p) "%")
      (fmt1 "action.status ILIKE $" "") [VString (Status p)] 1 [];
    and_clause (neq (ActionID p) inf)
      (fmt2 "actions.id >= $" " AND actions.id <= $" "")
      [VFloat (minActionID ids); VFloat (maxActionID ids)] 2 [];
    and_clause (neq (ActionName p) "%")
      (fmt1 "actions.name ILIKE $" "") [VString (ActionName p)] 1 [];
    and_clause (neq (InvestigatorID p) inf)
      (fmt2 "investigators.id >= $" " AND investigators.id <= $" "")
      [VFloat (minInvID ids); VFloat (maxInvID ids)] 2 [joinInvestigator];
    and_clause (neq (InvestigatorName p) "%")
      (fmt1 "investigators.name ILIKE $" "") [VString (InvestigatorName p)] 1
      [joinInvestigator];
    and_clause (neq (AgentID p) inf)
      (fmt2 "agents.id >= $" " AND agents.id <= $" "")
      [VFloat (minAgentID ids); VFloat (maxAgentID ids)] 2 [joinAgent; joinCommand];
    and_clause (neq (AgentName p) "%")
      (fmt1 "agents.name ILIKE $" "") [VString (AgentName p)] 1 [joinAgent; joinCommand];
    and_clause (neq (CommandID p) inf)
      (fmt2 "commands.id >= $" " AND commands.id <= $" "")
      [VFloat (minCommandID ids); VFloat (maxCommandID ids)] 2 [joinCommand] ].

(** The [join] text, assembled from the switches once the filters above
    have been walked through. *)
Definition SearchActions_join (j : Joins) : string :=
  let join := "" in
  let join := if j_command j
    then join ++ "INNER JOIN commands ON ( commands.actionid = actions.id) " else join in
  let join := if j_agent j
    then join ++ " INNER JOIN agents ON ( commands.agentid = agents.id ) " else join in
  let join := if j_investigator j
    then join ++ " INNER JOIN signatures ON ( actions.id = signatures.actionid )" ++ nl ++
         tab3 ++ "INNER JOIN investigators ON ( signatures.investigatorid = investigators.id ) "
    else join in
  join.

(** The threat-family block comes after the [join] text is assembled. *)
Definition SearchActions_threat (p : SearchParameters) : Clause Val :=
  and_clause (neq (ThreatFamily p) "%")
    (fmt1 "actions.threat#>>'{family}' ILIKE $" " ") [VString (ThreatFamily p)] 1 [].

Definition SearchActions_assemble {V} (cs : list (Clause V)) (threat : Clause V) (limit offset : V)
    : string * list V :=
  let b := emit_all cs (mkBuilder "" [] 0 no_joins) in
  let join := SearchActions_join (b_joins b) in
  let b := emit b threat in
  ("SELECT " ++ SearchActions_columns ++ " FROM actions " ++ join ++ " WHERE " ++ b_text b ++
     fmt2 (" GROUP BY actions.id" ++ nl ++
           tab2 ++ "ORDER BY actions.validfrom DESC LIMIT $") " OFFSET $" ";" (b_valctr b),
   (b_vals b ++ [limit; offset])%list).

Definition SearchActions_query (p : SearchParameters) (ids : IDs)
    (now1 now2 : Time) : string * list Val :=
  SearchActions_assemble (SearchActions_clauses p ids now1 now2) (SearchActions_threat p)
    (VUint64 (uint64 (Limit p))) (VUint64 (uint64 (Offset p))).

(** *** SearchAgents *)

Definition SearchAgents_columns : string :=
  "agents.id, agents.name, agents.queueloc, agents.mode," ++ nl ++
  tab2 ++ "agents.version, agents.pid, agents.starttime, agents.destructiontime," ++ nl ++
  tab2 ++ "agents.heartbeattime, agents.status".

Definition SearchAgents_clauses (p : SearchParameters) (ids : IDs)
    (now1 now2 : Time) : list (Clause Val) :=
  [ first_clause (before_set p now1)
      (fmt1 "agents.heartbeattime <= $" " ") [VTime (Before p)] 1;
    and_clause (after_set p now2)
      (fmt1 "agents.heartbeattime >= $" " ") [VTime (After p)] 1 [];
    and_clause (neq (AgentID p) inf)
      (fmt2 "agents.id >= $" " AND agents.id <= $" "")
      [VFloat (minAgentID ids); VFloat (maxAgentID ids)] 2 [];
    and_clause (neq (AgentName p) "%")
      (fmt1 "agents.name ILIKE $" "") [VString (AgentName p)] 1 [];
    and_clause (neq (Status p) "%")
      (fmt1 "agents.status ILIKE $" "") [VString (Status p)] 1 [];
    and_clause (neq (ActionID p) inf)
      (fmt2 "actions.id >= $" " AND actions.id <= $" "")
      [VFloat (minActionID ids); VFloat (maxActionID ids)] 2 [joinAction; joinCommand];
    and_clause (neq (ActionName p) "%")
      (fmt1 "actions.name ILIKE $" "") [VString (ActionName p)] 1 [joinAction; joinCommand];
    and_clause (neq (ThreatFamily p) "%")
      (fmt1 "actions.threat#>>'{family}' ILIKE $" " ") [VString (ThreatFamily p)] 1
      [joinAction; joinCommand];
    and_clause (neq (InvestigatorID p) inf)
      (fmt2 "investigators.id >= $" " AND investigators.id <= $" "")
      [VFloat (minInvID ids); VFloat (maxInvID ids)] 2
      [joinInvestigator; joinCommand; joinAction];
    and_clause (neq (InvestigatorName p) "%")
      (fmt1 "investigators.name ILIKE $" "") [VString (InvestigatorName p)] 1
      [joinInvestigator; joinCommand; joinAction];
    and_clause (neq (CommandID p) inf)
      (fmt2 "commands.id >= $" " AND commands.id <= $" "")
      [VFloat (minCommandID ids); VFloat (maxCommandID ids)] 2 [joinCommand] ].

Definition SearchAgents_join (j : Joins) : string :=
  let join := "" in
  let join := if j_command j
    then join ++ "INNER JOIN commands ON ( commands.agentid = agents.id) " else join in
  let join := if j_action j
    then join ++ " INNER JOIN actions ON ( commands.actionid = actions.id ) " else join in
  let join := if j_investigator j
    then join ++ " INNER JOIN signatures ON ( actions.id = signatures.actionid )" ++ nl ++
         tab3 ++ "INNER JOIN investigators ON ( signatures.investigatorid = investigators.id ) "
    else join in
  join.

Definition SearchAgents_assemble {V} (cs : list (Clause V)) (limit offset : V)
    : string * list V :=
  let b := emit_all cs (mkBuilder "" [] 0 no_joins) in
  let join := SearchAgents_join (b_joins b) in
  ("SELECT " ++ SearchAgents_columns ++ " FROM agents " ++ join ++ " WHERE " ++ b_text b ++
     fmt2 (" GROUP BY agents.id" ++ nl ++
           tab2 ++ "ORDER BY agents.heartbeattime DESC LIMIT $") " OFFSET $" ";" (b_valctr b),
   (b_vals b ++ [limit; offset])%list).

Definition SearchAgents_query (p : SearchParameters) (ids : IDs)
    (now1 now2 : Time) : string * list Val :=
  SearchAgents_assemble (SearchAgents_clauses p ids now1 now2)
    (VUint64 (uint64 (Limit p))) (VUint64 (uint64 (Offset p))).

(** *** SearchInvestigators *)

Definition SearchInvestigators_columns : string :=
  "investigators.id, investigators.name, investigators.pgpfingerprint," ++ nl ++
  tab2 ++ "investigators.status, investigators.createdat, investigators.lastmodified".

Definition SearchInvestigators_clauses (p : SearchParameters) (ids : IDs)
    (now1 now2 : Time) : list (Clause Val) :=
  [ first_clause (before_set p now1)
      (fmt1 "investigators.lastmodified <= $" " ") [VTime (Before p)] 1;
    and_clause (after_set p now2)
      (fmt1 "investigators.lastmodified >= $" " ") [VTime (After p)] 1 [];
    and_clause (neq (InvestigatorID p) inf)
      (fmt2 "investigators.id >= $" " AND investigators.id <= $" "")
      [VFloat (minInvID ids); VFloat (maxInvID ids)] 2 [];
    and_clause (neq (InvestigatorName p) "%")
      (fmt1 "investigators.name ILIKE $" "") [VString (InvestigatorName p)] 1 [];
    and_clause (neq (Status p) "%")
      (fmt1 "investigators.status ILIKE $" "") [VString (Status p)] 1 [];
    and_clause (neq (ActionID p) inf)
      (fmt2 "actions.id >= $" " AND actions.id <= $" "")
      [VFloat (minActionID ids); VFloat (maxActionID ids)] 2 [joinAction];
    and_clause (neq (ActionName p) "%")
      (fmt1 "actions.name ILIKE $" "") [VString (ActionName p)] 1 [joinAction];
    and_clause (neq (ThreatFamily p) "%")
      (fmt1 "actions.threat#>>'{family}' ILIKE $" " ") [VString (ThreatFamily p)] 1
      [joinAction];
    and_clause (neq (CommandID p) inf)
      (fmt2 "commands.id >= $" " AND commands.id <= $" "")
      [VFloat (minCommandID ids); VFloat (maxCommandID ids)] 2 [joinCommand; joinAction];
    and_clause (neq (AgentID p) inf)
      (fmt2 "agents.id >= $" " AND agents.id <= $" "")
      [VFloat (minAgentID ids); VFloat (maxAgentID ids)] 2
      [joinCommand; joinAction; joinAgent];
    and_clause (neq (AgentName p) "%")
      (fmt1 "agents.name ILIKE $" "") [VString (AgentName p)] 1
      [joinCommand; joinAction; joinAgent] ].

Definition SearchInvestigators_join (j : Joins) : string :=
  let join := "" in
  let join := if j_action j
    then join ++ " INNER JOIN signatures ON ( signatures.investigatorid = investigators.id ) " ++ nl ++
         tab3 ++ "INNER JOIN actions ON ( actions.id = signatures.actionid ) "
    else join in
  let join := if j_command j
    then join ++ "INNER JOIN commands ON ( commands.actionid = actions.id) " else join in
  let join := if j_agent j
    then join ++ " INNER JOIN agents ON ( commands.agentid = agents.id ) " else join in
  join.

Definition SearchInvestigators_assemble {V} (cs : list (Clause V)) (limit offset : V)
    : string * list V :=
  let b := emit_all cs (mkBuilder "" [] 0 no_joins) in
  let join := SearchInvestigators_join (b_joins b) in
  ("SELECT " ++ SearchInvestigators_columns ++ " FROM investigators " ++ join ++ " WHERE " ++ b_text b ++
     fmt2 (" GROUP BY investigators.id" ++ nl ++
           tab2 ++ "ORDER BY investigators.id ASC LIMIT $") " OFFSET $" ";" (b_valctr b),
   (b_vals b ++ [limit; offset])%list).

Definition SearchInvestigators_query (p : SearchParameters) (ids : IDs)
    (now1 now2 : Time) : string * list Val :=
  SearchInvestigators_assemble (SearchInvestigators_clauses p ids now1 now2)
    (VUint64 (uint64 (Limit p))) (VUint64 (uint64 (Offset p))).

(** *** The four search routines *)

(** The four routines, and the query each one builds. *)
Inductive Entity := Actions | Commands | Agents | Investigators.

Definition query_of (e : Entity) (p : SearchParameters) (ids : IDs) (doFoundAnything : bool)
    (now1 now2 : Time) : string * list Val :=
  match e with
  | Commands => SearchCommands_query p ids doFoundAnything now1 now2
  | Actions => SearchActions_query p ids now1 now2
  | Agents => SearchAgents_query p ids now1 now2
  | Investigators => SearchInvestigators_query p ids now1 now2
  end.

Section Operations.

Variable ParseFloat : string -> float64 * option NumError.

(** The store behind [db.c]: preparing a statement, running it with the
    bound values and reading its rows into records, with the error it ends
    on (if any). *)
Variables (StoreError Command Action Agent Investigator : Type).
Variable runCommands : string -> list Val -> list Command * option StoreError.
Variable runActions : string -> list Val -> list Action * option StoreError.
Variable runAgents : string -> list Val -> list Agent * option StoreError.
Variable runInvestigators : string -> list Val -> list Investigator * option StoreError.

(** The frame shared by the four routines: resolve the identifier ranges
    and return at once when that fails; otherwise build the statement and
    hand it to the store. *)
Definition search {R} (run : string -> list Val -> list R * option StoreError)
    (build : IDs -> string * list Val) (p : SearchParameters) : Outcome R StoreError :=
  let (ids, err) := makeIDsFromParams ParseFloat p in
  match err with
  | Some e => mkOutcome [] (Some (BadFilter e)) []
  | None =>
      let (query, vals) := build ids in
      let (rows, err) := run query vals in
      mkOutcome rows (option_map StoreFailure err) [(query, vals)]
  end.

(** [SearchCommands] returns an array of commands that match search parameters. *)
Definition SearchCommands (p : SearchParameters) (doFoundAnything : bool) (now1 now2 : Time) :=
  search runCommands (fun ids => SearchCommands_query p ids doFoundAnything now1 now2) p.

(** [SearchActions] returns an array of actions that match search parameters. *)
Definition SearchActions (p : SearchParameters) (now1 now2 : Time) :=
  search runActions (fun ids => SearchActions_query p ids now1 now2) p.

(** [SearchAgents] returns an array of agents that match search parameters. *)
Definition SearchAgents (p : SearchParameters) (now1 now2 : Time) :=
  search runAgents (fun ids => SearchAgents_query p ids now1 now2) p.

(** [SearchInvestigators] returns an array of investigators that match search parameters. *)
Definition SearchInvestigators (p : SearchParameters) (now1 now2 : Time) :=
  search runInvestigators (fun ids => SearchInvestigators_query p ids now1 now2) p.

End Operations.

End Queries.

End Searches.

(** ** Reading a query text back

    The text of a statement is taken apart again, the way the store's
    parser would meet it: its positional parameters, its joined tables, its
    [WHERE] clause, and for each parameter the comparison it stands in. *)

Module SQLText.

Import Text.

Definition dollar : ascii := ascii_of_nat 36.

(** The number spelt by the leading digits of [s], if any. *)
Fixpoint leading_number (s : string) (acc : option Z) : option Z :=
  match s with
  | String c s' =>
      if is_digit c
      then leading_number s' (Some (10 * match acc with Some n => n | None => 0 end + digit_val c))
      else acc
  | EmptyString => acc
  end.

(** The positional parameters [$n] of a text, in the order they occur. *)
Fixpoint placeholders (s : string) : list Z :=
  match s with
  | EmptyString => []
  | String c s' =>
      if Ascii.eqb c dollar
      then match leading_number s' None with
           | Some n => n :: placeholders s'
           | None => placeholders s'
           end
      else placeholders s'
  end.

(** Space (32), tab (9) and newline (10), by their bits, lowest first. *)
Definition is_blank (c : ascii) : bool :=
  match c with
  | Ascii false false false false false true false false
  | Ascii true false false true false false false false
  | Ascii false true false true false false false false => true
  | _ => false
  end.

(** The leading run of non-blank characters. *)
Fixpoint word (s : string) : string :=
  match s with
  | EmptyString => EmptyString
  | String c s' => if is_blank c then EmptyString else String c (word s')
  end.

(** The tables brought in by [INNER JOIN], in the order they occur. *)
Fixpoint joined_tables (s : string) : list string :=
  match s with
  | EmptyString => []
  | String _ s' =>
      if starts_with "INNER JOIN " s
      then word (drop 11 s) :: joined_tables s'
      else joined_tables s'
  end.

(** The outer [WHERE] clause: what stands between the first [WHERE] and
    the [GROUP BY]. *)
Definition where_clause (query : string) : string :=
  before_first " GROUP BY" (after_first "WHERE " query).

(** The blank-separated words of a text: a word starts at every non-blank
    character that does not follow one. *)
Fixpoint words_from (s : string) (inside : bool) : list string :=
  match s with
  | EmptyString => []
  | String c s' =>
      if is_blank c then words_from s' false
      else if inside then words_from s' true
      else word s :: words_from s' true
  end.
Definition words (s : string) : list string := words_from s false.

(** The parameter number of a word of the form [$n], possibly followed by
    punctuation. *)
Definition parameter_of (w : string) : option Z :=
  match w with
  | String c rest => if Ascii.eqb c dollar then leading_number rest None else None
  | EmptyString => None
  end.

(** Every parameter with the two words before it: the column (or keyword)
    and the operator it is compared with. *)
Fixpoint bindings (ws : list string) : list (string * string * Z) :=
  match ws with
  | [] => []
  | a :: rest =>
      match rest with
      | b :: c :: _ =>
          match parameter_of c with
          | Some n => (a, b, n) :: bindings rest
          | None => bindings rest
          end
      | _ => []
      end
  end.

(** The table aliases a clause refers to: the part before the dot of every
    word of the form [alias.column...]. *)
Fixpoint strip_parens (s : string) : string :=
  match s with
  | String c s' => if N.eqb (N_of_ascii c) 40 then strip_parens s' else s
  | EmptyString => EmptyString
  end.

Definition alias_of (w : string) : option string :=
  let w := strip_parens w in
  if mentions "." w then Some (before_first "." w) else None.

Fixpoint aliases (ws : list string) : list string :=
  match ws with
  | [] => []
  | w :: ws' => match alias_of w with
                | Some a => a :: aliases ws'
                | None => aliases ws'
                end
  end.

End SQLText.

(** ** Which filters are set, and what each bound value stands for *)

Module Filters.

Import GoTime Float64 Text Searches.

(** The nine filters with a sentinel. *)
Inductive Filter :=
| FActionID | FActionName | FAgentID | FAgentName | FCommandID
| FInvestigatorID | FInvestigatorName | FStatus | FThreatFamily.

Definition all_filters : list Filter :=
  [FActionID; FActionName; FAgentID; FAgentName; FCommandID;
   FInvestigatorID; FInvestigatorName; FStatus; FThreatFamily].

Definition is_identifier (f : Filter) : bool :=
  match f with
  | FActionID | FAgentID | FCommandID | FInvestigatorID => true
  | _ => false
  end.

Definition value (p : SearchParameters) (f : Filter) : string :=
  match f with
  | FActionID => ActionID p
  | FActionName => ActionName p
  | FAgentID => AgentID p
  | FAgentName => AgentName p
  | FCommandID => CommandID p
  | FInvestigatorID => InvestigatorID p
  | FInvestigatorName => InvestigatorName p
  | FStatus => Status p
  | FThreatFamily => ThreatFamily p
  end.

Definition sentinel (f : Filter) : string := if is_identifier f then inf else "%".

(** A filter is set when it differs from its sentinel. *)
Definition is_set (p : SearchParameters) (f : Filter) : bool :=
  neq (value p f) (sentinel f).

(** The outcome of every test a search routine makes: the two time-window
    tests, the nine filters, and the found-anything switch. *)
Record Active := mkActive {
  on_before : bool; on_after : bool;
  on_actionid : bool; on_actionname : bool;
  on_agentid : bool; on_agentname : bool;
  on_commandid : bool;
  on_invid : bool; on_invname : bool;
  on_status : bool; on_threat : bool;
  on_found : bool
}.

Definition active_of (p : SearchParameters) (doFoundAnything : bool) (now1 now2 : Time) : Active :=
  {| on_before := before_set p now1; on_after := after_set p now2;
     on_actionid := neq (ActionID p) inf; on_actionname := neq (ActionName p) "%";
     on_agentid := neq (AgentID p) inf; on_agentname := neq (AgentName p) "%";
     on_commandid := neq (CommandID p) inf;
     on_invid := neq (InvestigatorID p) inf; on_invname := neq (InvestigatorName p) "%";
     on_status := neq (Status p) "%"; on_threat := neq (ThreatFamily p) "%";
     on_found := doFoundAnything |}.

Definition is_on (a : Active) (f : Filter) : bool :=
  match f with
  | FActionID => on_actionid a
  | FActionName => on_actionname a
  | FAgentID => on_agentid a
  | FAgentName => on_agentname a
  | FCommandID => on_commandid a
  | FInvestigatorID => on_invid a
  | FInvestigatorName => on_invname a
  | FStatus => on_status a
  | FThreatFamily => on_threat a
  end.

(** Exhaustive checks over the outcomes of the tests. *)
Definition every (f : bool -> bool) : bool := f true && f false.

Definition every_active (chk : Active -> bool) : bool :=
  every (fun b1 => every (fun b2 => every (fun b3 => every (fun b4 =>
  every (fun b5 => every (fun b6 => every (fun b7 => every (fun b8 =>
  every (fun b9 => every (fun b10 => every (fun b11 => every (fun b12 =>
    chk (mkActive b1 b2 b3 b4 b5 b6 b7 b8 b9 b10 b11 b12))))))))))))).

(** The Go expression behind a bound value. *)
Inductive Slot :=
| SBefore | SAfter
| SMinAction | SMaxAction | SMinCommand | SMaxCommand
| SMinAgent | SMaxAgent | SMinInv | SMaxInv
| SStatus | SActionName | SAgentName | SInvName | SThreat
| SSuccess | SFound | SLimit | SOffset.

Definition slot_eqb (x y : Slot) : bool :=
  match x, y with
  | SBefore, SBefore | SAfter, SAfter
  | SMinAction, SMinAction | SMaxAction, SMaxAction
  | SMinCommand, SMinCommand | SMaxCommand, SMaxCommand
  | SMinAgent, SMinAgent | SMaxAgent, SMaxAgent
  | SMinInv, SMinInv | SMaxInv, SMaxInv
  | SStatus, SStatus | SActionName, SActionName | SAgentName, SAgentName
  | SInvName, SInvName | SThreat, SThreat
  | SSuccess, SSuccess | SFound, SFound | SLimit, SLimit | SOffset, SOffset => true
  | _, _ => false
  end.


Section Denote.

Variable StatusSuccess : string.
Variable uint64_other : float64 -> Z.

Definition denote (p : SearchParameters) (ids : IDs) (s : Slot) : Val :=
  match s with
  | SBefore => VTime (Before p)
  | SAfter => VTime (After p)
  | SMinAction => VFloat (minActionID ids)
  | SMaxAction => VFloat (maxActionID ids)
  | SMinCommand => VFloat (minCommandID ids)
  | SMaxCommand => VFloat (maxCommandID ids)
  | SMinAgent => VFloat (minAgentID ids)
  | SMaxAgent => VFloat (maxAgentID ids)
  | SMinInv => VFloat (minInvID ids)
  | SMaxInv => VFloat (maxInvID ids)
  | SStatus => VString (Status p)
  | SActionName => VString (ActionName p)
  | SAgentName => VString (AgentName p)
  | SInvName => VString (InvestigatorName p)
  | SThreat => VString (ThreatFamily p)
  | SSuccess => VString StatusSuccess
  | SFound => VBool (FoundAnything p)
  | SLimit => VUint64 (uint64 uint64_other (Limit p))
  | SOffset => VUint64 (uint64 uint64_other (Offset p))
  end.

End Denote.

(** What a parameter is to be bound to, read from the two words before it
    in the text: a column and its comparison, or [LIMIT] / [OFFSET]. *)
Definition one_of (s : string) (l : list string) : bool := existsb (String.eqb s) l.

Definition bound_to (lhs op : string) : option Slot :=
  if String.eqb op "LIMIT" then Some SLimit
  else if String.eqb op "OFFSET" then Some SOffset
  else if String.eqb op "<=" then
    if one_of lhs ["commands.starttime"; "actions.expireafter"; "agents.heartbeattime";
                   "investigators.lastmodified"] then Some SBefore
    else if String.eqb lhs "actions.id" then Some SMaxAction
    else if String.eqb lhs "commands.id" then Some SMaxCommand
    else if String.eqb lhs "agents.id" then Some SMaxAgent
    else if String.eqb lhs "investigators.id" then Some SMaxInv
    else None
  else if String.eqb op ">=" then
    if one_of lhs ["commands.starttime"; "actions.validfrom"; "agents.heartbeattime";
                   "investigators.lastmodified"] then Some SAfter
    else if String.eqb lhs "actions.id" then Some SMinAction
    else if String.eqb lhs "commands.id" then Some SMinCommand
    else if String.eqb lhs "agents.id" then Some SMinAgent
    else if String.eqb lhs "investigators.id" then Some SMinInv
    else None
  else if String.eqb op "ILIKE" then
    if one_of lhs ["commands.status"; "action.status"; "agents.status";
                   "investigators.status"] then Some SStatus
    else if String.eqb lhs "actions.name" then Some SActionName
    else if String.eqb lhs "agents.name" then Some SAgentName
    else if String.eqb lhs "investigators.name" then Some SInvName
    else if String.eqb lhs "actions.threat#>>'{family}'" then Some SThreat
    else None
  else if String.eqb op "=" then
    if String.eqb lhs "commands.status" then Some SSuccess
    else if String.eqb lhs "r#>>'{foundanything}'" then Some SFound
    else None
  else None.

End Filters.

(** ** The skeleton of a query

    The text of a query depends on the parameters only through the tests
    of [active_of], and every bound value is one of the expressions of
    [Slot].  The skeleton of a routine is its list of blocks with the tests
    replaced by their outcomes and the values by their slots; the lemmas
    below show that the query of the program is an instance of it. *)

Module Skeleton.

Import GoTime Float64 Text Searches Filters.

Definition cmap {V W} (f : V -> W) (c : Clause V) : Clause W :=
  mkClause (c_if c) (c_and c) (c_fmt c) (map f (c_vals c)) (c_slots c) (c_joins c).

Definition bmap {V W} (f : V -> W) (b : Builder V) : Builder W :=
  mkBuilder (b_text b) (map f (b_vals b)) (b_valctr b) (b_joins b).

Definition commands_shape (a : Active) : list (Clause Slot) :=
  [ first_clause (on_before a) (fmt1 "commands.starttime <= $" " ") [SBefore] 1;
    and_clause (on_after a) (fmt1 "commands.starttime >= $" " ") [SAfter] 1 [];
    and_clause (on_commandid a) (fmt2 "commands.id >= $" " AND commands.id <= $" "")
      [SMinCommand; SMaxCommand] 2 [];
    and_clause (on_status a) (fmt1 "commands.status ILIKE $" "") [SStatus] 1 [];
    and_clause (on_actionid a) (fmt2 "actions.id >= $" " AND actions.id <= $" "")
      [SMinAction; SMaxAction] 2 [];
    and_clause (on_actionname a) (fmt1 "actions.name ILIKE $" "") [SActionName] 1 [];
    and_clause (on_invid a) (fmt2 "investigators.id >= $" " AND investigators.id <= $" "")
      [SMinInv; SMaxInv] 2 [];
    and_clause (on_invname a) (fmt1 "investigators.name ILIKE $" "") [SInvName] 1 [];
    and_clause (on_agentid a) (fmt2 "agents.id >= $" " AND agents.id <= $" "")
      [SMinAgent; SMaxAgent] 2 [];
    and_clause (on_agentname a) (fmt1 "agents.name ILIKE $" "") [SAgentName] 1 [];
    and_clause (on_found a) SearchCommands_found
      [SSuccess; SMinAction; SMaxAction; SFound] 4 [];
    and_clause (on_threat a) (fmt1 "actions.threat#>>'{family}' ILIKE $" " ") [SThreat] 1 [] ].

Definition actions_shape (a : Active) : list (Clause Slot) :=
  [ first_clause (on_before a) (fmt1 "actions.expireafter <= $" " ") [SBefore] 1;
    and_clause (on_after a) (fmt1 "actions.validfrom >= $" " ") [SAfter] 1 [];
    and_clause (on_status a) (fmt1 "action.status ILIKE $" "") [SStatus] 1 [];
    and_clause (on_actionid a) (fmt2 "actions.id >= $" " AND actions.id <= $" "")
      [SMinAction; SMaxAction] 2 [];
    and_clause (on_actionname a) (fmt1 "actions.name ILIKE $" "") [SActionName] 1 [];
    and_clause (on_invid a) (fmt2 "investigators.id >= $" " AND investigators.id <= $" "")
      [SMinInv; SMaxInv] 2 [joinInvestigator];
    and_clause (on_invname a) (fmt1 "investigators.name ILIKE $" "") [SInvName] 1
      [joinInvestigator];
    and_clause (on_agentid a) (fmt2 "agents.id >= $" " AND agents.id <= $" "")
      [SMinAgent; SMaxAgent] 2 [joinAgent; joinCommand];
    and_clause (on_agentname a) (fmt1 "agents.name ILIKE $" "") [SAgentName] 1
      [joinAgent; joinCommand];
    and_clause (on_commandid a) (fmt2 "commands.id >= $" " AND commands.id <= $" "")
      [SMinCommand; SMaxCommand] 2 [joinCommand] ].

Definition actions_threat_shape (a : Active) : Clause Slot :=
  and_clause (on_threat a) (fmt1 "actions.threat#>>'{family}' ILIKE $" " ") [SThreat] 1 [].

Definition agents_shape (a : Active) : list (Clause Slot) :=
  [ first_clause (on_before a) (fmt1 "agents.heartbeattime <= $" " ") [SBefore] 1;
    and_clause (on_after a) (fmt1 "agents.heartbeattime >= $" " ") [SAfter] 1 [];
    and_clause (on_agentid a) (fmt2 "agents.id >= $" " AND agents.id <= $" "")
      [SMinAgent; SMaxAgent] 2 [];
    and_clause (on_agentname a) (fmt1 "agents.name ILIKE $" "") [SAgentName] 1 [];
    and_clause (on_status a) (fmt1 "agents.status ILIKE $" "") [SStatus] 1 [];
    and_clause (on_actionid a) (fmt2 "actions.id >= $" " AND actions.id <= $" "")
      [SMinAction; SMaxAction] 2 [joinAction; joinCommand];
    and_clause (on_actionname a) (fmt1 "actions.name ILIKE $" "") [SActionName] 1
      [joinAction; joinCommand];
    and_clause (on_threat a) (fmt1 "actions.threat#>>'{family}' ILIKE $" " ") [SThreat] 1
      [joinAction; joinCommand];
    and_clause (on_invid a) (fmt2 "investigators.id >= $" " AND investigators.id <= $" "")
      [SMinInv; SMaxInv] 2 [joinInvestigator; joinCommand; joinAction];
    and_clause (on_invname a) (fmt1 "investigators.name ILIKE $" "") [SInvName] 1
      [joinInvestigator; joinCommand; joinAction];
    and_clause (on_commandid a) (fmt2 "commands.id >= $" " AND commands.id <= $" "")
      [SMinCommand; SMaxCommand] 2 [joinCommand] ].

Definition investigators_shape (a : Active) : list (Clause Slot) :=
  [ first_clause (on_before a) (fmt1 "investigators.lastmodified <= $" " ") [SBefore] 1;
    and_clause (on_after a) (fmt1 "investigators.lastmodified >= $" " ") [SAfter] 1 [];
    and_clause (on_invid a) (fmt2 "investigators.id >= $" " AND investigators.id <= $" "")
      [SMinInv; SMaxInv] 2 [];
    and_clause (on_invname a) (fmt1 "investigators.name ILIKE $" "") [SInvName] 1 [];
    and_clause (on_status a) (fmt1 "investigators.status ILIKE $" "") [SStatus] 1 [];
    and_clause (on_actionid a) (fmt2 "actions.id >= $" " AND actions.id <= $" "")
      [SMinAction; SMaxAction] 2 [joinAction];
    and_clause (on_actionname a) (fmt1 "actions.name ILIKE $" "") [SActionName] 1 [joinAction];
    and_clause (on_threat a) (fmt1 "actions.threat#>>'{family}' ILIKE $" " ") [SThreat] 1
      [joinAction];
    and_clause (on_commandid a) (fmt2 "commands.id >= $" " AND commands.id <= $" "")
      [SMinCommand; SMaxCommand] 2 [joinCommand; joinAction];
    and_clause (on_agentid a) (fmt2 "agents.id >= $" " AND agents.id <= $" "")
      [SMinAgent; SMaxAgent] 2 [joinCommand; joinAction; joinAgent];
    and_clause (on_agentname a) (fmt1 "agents.name ILIKE $" "") [SAgentName] 1
      [joinCommand; joinAction; joinAgent] ].

(** The skeleton of each routine: its text, and the slots it binds. *)
Definition skeleton (e : Entity) (a : Active) : string * list Slot :=
  match e with
  | Commands => SearchCommands_assemble (commands_shape a) SLimit SOffset
  | Actions => SearchActions_assemble (actions_shape a) (actions_threat_shape a) SLimit SOffset
  | Agents => SearchAgents_assemble (agents_shape a) SLimit SOffset
  | Investigators => SearchInvestigators_assemble (investigators_shape a) SLimit SOffset
  end.

End Skeleton.

(** ** The join-inference rules, as the specification words them *)

Module JoinRules.

Import Searches Filters.

Definition flag_eqb (x y : JoinFlag) : bool :=
  match x, y with
  | joinAction, joinAction | joinAgent, joinAgent
  | joinCommand, joinCommand | joinInvestigator, joinInvestigator => true
  | _, _ => false
  end.

(** The switches a set filter forces, per routine (the closure is written
    out: an investigator filter on the agents search forces the command
    and action joins it goes through). *)
Definition forces (e : Entity) (f : Filter) : list JoinFlag :=
  match e, f with
  | Actions, (FAgentID | FAgentName) => [joinAgent; joinCommand]
  | Actions, FCommandID => [joinCommand]
  | Actions, (FInvestigatorID | FInvestigatorName) => [joinInvestigator]
  | Agents, (FActionID | FActionName | FThreatFamily) => [joinAction; joinCommand]
  | Agents, (FInvestigatorID | FInvestigatorName) => [joinInvestigator; joinCommand; joinAction]
  | Agents, FCommandID => [joinCommand]
  | Investigators, (FActionID | FActionName | FThreatFamily) => [joinAction]
  | Investigators, FCommandID => [joinCommand; joinAction]
  | Investigators, (FAgentID | FAgentName) => [joinCommand; joinAction; joinAgent]
  | _, _ => []
  end.

(** A switch is required when some set filter forces it. *)
Definition required (set : Filter -> bool) (e : Entity) (j : JoinFlag) : bool :=
  existsb (fun f => set f && existsb (flag_eqb j) (forces e f)) all_filters.

(** The final joins of each routine, in order, with the tables each one
    brings in. *)
Definition final_joins (e : Entity) : list (JoinFlag * list string) :=
  match e with
  | Actions => [(joinCommand, ["commands"]); (joinAgent, ["agents"]);
                (joinInvestigator, ["signatures"; "investigators"])]
  | Agents => [(joinCommand, ["commands"]); (joinAction, ["actions"]);
               (joinInvestigator, ["signatures"; "investigators"])]
  | Investigators => [(joinAction, ["signatures"; "actions"]); (joinCommand, ["commands"]);
                      (joinAgent, ["agents"])]
  | Commands => []
  end.

(** The tables a routine is to join, given which filters are set; the
    commands search joins its four tables whatever the filters. *)
Definition expected_tables (set : Filter -> bool) (e : Entity) : list string :=
  match e with
  | Commands => ["actions"; "signatures"; "investigators"; "agents"]
  | _ => flat_map (fun jt => if required set e (fst jt) then snd jt else []) (final_joins e)
  end.

(** The table each joined table hangs on: the other table named in its
    [ON] condition.  A join is usable only when that table is the primary
    one or has been joined before. *)
Definition primary (e : Entity) : string :=
  match e with
  | Actions => "actions" | Commands => "commands"
  | Agents => "agents" | Investigators => "investigators"
  end.

End JoinRules.

(** ** Decidable checks on a skeleton

    Each check is a boolean function of the outcomes of the tests; it is
    evaluated on all of them, and the result is carried over to the query
    of the program. *)

Module Checks.

Import Text Searches SQLText Filters Skeleton JoinRules.

Fixpoint strings_eqb (l1 l2 : list string) : bool :=
  match l1, l2 with
  | [], [] => true
  | a :: l1', b :: l2' => String.eqb a b && strings_eqb l1' l2'
  | _, _ => false
  end.

Fixpoint numbers_eqb (l1 l2 : list Z) : bool :=
  match l1, l2 with
  | [], [] => true
  | a :: l1', b :: l2' => (a =? b) && numbers_eqb l1' l2'
  | _, _ => false
  end.

Fixpoint slots_eqb (l1 l2 : list Slot) : bool :=
  match l1, l2 with
  | [], [] => true
  | a :: l1', b :: l2' => slot_eqb a b && slots_eqb l1' l2'
  | _, _ => false
  end.

(** [k; k+1; ...], [n] numbers in all. *)
Fixpoint count_from (k : Z) (n : nat) : list Z :=
  match n with
  | O => []
  | S n' => k :: count_from (k + 1) n'
  end.

Definition all_entities : list Entity := [Actions; Commands; Agents; Investigators].

Definition every_entity (chk : Entity -> Active -> bool) : bool :=
  every_active (fun a => forallb (fun e => chk e a) all_entities).

(** The joined tables are those the rules ask for. *)
Definition joins_check (e : Entity) (a : Active) : bool :=
  strings_eqb (joined_tables (fst (skeleton e a))) (expected_tables (is_on a) e).

(** The number of parameters a query is to bind: one per time-window
    bound in force, two per identifier filter, one per pattern filter,
    four for the found-anything clause, and two for [LIMIT] and
    [OFFSET]. *)
Definition slots_of (f : Filter) : Z := if is_identifier f then 2 else 1.

Definition is_commands (e : Entity) : bool :=
  match e with Commands => true | _ => false end.

Definition expected_parameters (e : Entity) (set : Filter -> bool)
    (before after found : bool) : Z :=
  Z.b2z before + Z.b2z after +
  fold_right (fun f n => (if set f then slots_of f else 0) + n) 0 all_filters +
  (if is_commands e && found then 4 else 0) + 2.

(** The parameters of the text are [$1 ... $N], [N] being the number of
    bound values, which is the expected one. *)
Definition placeholders_check (e : Entity) (a : Active) : bool :=
  let (t, ls) := skeleton e a in
  numbers_eqb (placeholders t) (count_from 1 (List.length ls)) &&
  (Z.of_nat (List.length ls) =?
     expected_parameters e (is_on a) (on_before a) (on_after a) (on_found a)).

(** Does the value bound at a parameter's position come from the slot
    that the parameter's comparison asks for? *)
Definition binding_ok (ls : list Slot) (b : string * string * Z) : bool :=
  match bound_to (fst (fst b)) (snd (fst b)), nth_error ls (Z.to_nat (snd b - 1)) with
  | Some s, Some s' => slot_eqb s s'
  | _, _ => false
  end.

Definition is_keyword (k : string) (n : Z) (b : string * string * Z) : bool :=
  String.eqb (snd (fst b)) k && (snd b =? n).

(** Every parameter of the text has a comparison, every comparison finds
    its value, and the last two parameters are those of [LIMIT] and
    [OFFSET]. *)
Definition bindings_check (e : Entity) (a : Active) : bool :=
  let (t, ls) := skeleton e a in
  let bs := bindings (words t) in
  let n := Z.of_nat (List.length ls) in
  numbers_eqb (map snd bs) (placeholders t) &&
  forallb (binding_ok ls) bs &&
  existsb (is_keyword "LIMIT" (n - 1)) bs &&
  existsb (is_keyword "OFFSET" n) bs.

(** *** The time window *)

Definition before_predicate (e : Entity) : string :=
  match e with
  | Commands => "commands.starttime <= $"
  | Actions => "actions.expireafter <= $"
  | Agents => "agents.heartbeattime <= $"
  | Investigators => "investigators.lastmodified <= $"
  end.

Definition after_predicate (e : Entity) : string :=
  match e with
  | Commands => "commands.starttime >= $"
  | Actions => "actions.validfrom >= $"
  | Agents => "agents.heartbeattime >= $"
  | Investigators => "investigators.lastmodified >= $"
  end.

(** The timestamps among the bound values. *)
Definition timestamps (vs : list Val) : list GoTime.Time :=
  flat_map (fun v => match v with VTime t => [t] | _ => [] end) vs.

Definition time_slots (ls : list Slot) : list Slot :=
  filter (fun s => match s with SBefore | SAfter => true | _ => false end) ls.

Definition window_check (e : Entity) (a : Active) : bool :=
  let (t, ls) := skeleton e a in
  let w := where_clause t in
  Bool.eqb (mentions (before_predicate e) w) (on_before a) &&
  Bool.eqb (mentions (after_predicate e) w) (on_after a) &&
  slots_eqb (time_slots ls)
    ((if on_before a then [SBefore] else []) ++ (if on_after a then [SAfter] else [])).

(** *** Sentinels *)








Definition has_found (e : Entity) (found : bool) : bool := is_commands e && found.



(** *** The found-anything clause *)







(** *** The status predicate of the actions search *)

Definition declared_tables (e : Entity) (text : string) : list string :=
  primary e :: joined_tables text.

Definition known (l : list string) (s : string) : bool := existsb (String.eqb s) l.

Definition status_alias_on (t : string) : bool :=
  let w := where_clause t in
  let d := declared_tables Actions t in
  mentions "action.status ILIKE $" w &&
  known (aliases (words w)) "action" &&
  negb (known d "action") &&
  forallb (fun al => String.eqb al "action" || known d al) (aliases (words w)).

Definition status_alias_check (a : Active) : bool :=
  negb (on_status a) || status_alias_on (fst (skeleton Actions a)).

(** *** The resolver *)

(** The identifier filters, in the order the resolver reads them. *)
Definition identifier_filters : list Filter :=
  [FActionID; FCommandID; FAgentID; FInvestigatorID].

(** The range resolved for an identifier filter. *)
Definition range_of (f : Filter) (ids : IDs) : Float64.float64 * Float64.float64 :=
  match f with
  | FActionID => (minActionID ids, maxActionID ids)
  | FCommandID => (minCommandID ids, maxCommandID ids)
  | FAgentID => (minAgentID ids, maxAgentID ids)
  | _ => (minInvID ids, maxInvID ids)
  end.

(** Two parameter values that differ at most in [Report] and [Target]. *)
Definition same_but_report_target (p p' : SearchParameters) : Prop :=
  ActionID p = ActionID p' /\ ActionName p = ActionName p' /\ After p = After p' /\
  AgentID p = AgentID p' /\ AgentName p = AgentName p' /\ Before p = Before p' /\
  CommandID p = CommandID p' /\ FoundAnything p = FoundAnything p' /\
  InvestigatorID p = InvestigatorID p' /\ InvestigatorName p = InvestigatorName p' /\
  Limit p = Limit p' /\ Offset p = Offset p' /\ Status p = Status p' /\
  ThreatFamily p = ThreatFamily p' /\ Type_ p = Type_ p'.

End Checks.

(** ** A concrete platform for examples

    The properties below hold for every [strconv.ParseFloat], status
    constant and store.  The examples run them on the following ones. *)

Module Sample.

Import GoTime Float64 Text Searches.

(** The leading decimal digits of [s]: their value after [acc], their
    number, and the rest of [s]. *)
Fixpoint digits (s : string) (acc : Z) (n : Z) : Z * Z * string :=
  match s with
  | String c s' =>
      if is_digit c then digits s' (10 * acc + digit_val c) (n + 1) else (acc, n, s)
  | EmptyString => (acc, n, s)
  end.

(** An optional sign: is it a minus, and the rest. *)
Definition sign (s : string) : bool * string :=
  match s with
  | String c s' =>
      if Ascii.eqb c "-" then (true, s')
      else if Ascii.eqb c "+" then (false, s') else (false, s)
  | EmptyString => (false, s)
  end.

(** The float nearest to [m * 10^e] (ties to even), for [m > 0]. *)
Definition decimal (neg : bool) (m : positive) (e : Z) : float64 :=
  if 0 <=? e
  then binary_normalize prec emax ((if neg then Zneg m else Zpos m) * 10 ^ e) 0 false
  else SFdiv prec emax (S754_finite neg m 0) (S754_finite false (Z.to_pos (10 ^ (- e))) 0).

(** [strconv.ParseFloat(s, 64)] on plain decimal numerals: an optional
    sign, digits with an optional point, and an optional exponent.  A
    value too large for a [float64] is an infinity with [ErrRange];
    anything that is not such a numeral is reported as [ErrSyntax] (Go
    accepts a few more spellings: hexadecimal floats, infinities, NaN and
    underscores between digits). *)
Definition ParseDecimal (s : string) : float64 * option NumError :=
  let (neg, s) := sign s in
  let '(ip, ni, s) := digits s 0 0 in
  let '(m, nf, s) :=
    match s with
    | String c s' => if Ascii.eqb c "." then digits s' ip 0 else (ip, 0, s)
    | EmptyString => (ip, 0, s)
    end in
  if ni + nf =? 0 then (zero, Some ErrSyntax)
  else
    let '(ex, bad, s) :=
      match s with
      | String c s' =>
          if Ascii.eqb c "e" || Ascii.eqb c "E" then
            let (eneg, s'') := sign s' in
            let '(v, n, rest) := digits s'' 0 0 in
            ((if eneg then - v else v), n =? 0, rest)
          else (0, false, s)
      | EmptyString => (0, false, s)
      end in
    if bad || negb (String.eqb s "") then (zero, Some ErrSyntax)
    else
      match m with
      | Zpos q =>
          match decimal neg q (ex - nf) with
          | S754_infinity sg => (S754_infinity sg, Some ErrRange)
          | v => (v, None)
          end
      | _ => (S754_zero neg, None)
      end.

Definition StatusSuccess : string := "success".

(** A platform on which an unrepresentable [uint64] conversion yields 0. *)
Definition uint64_other (x : float64) : Z := 0.

(** A store with no rows. *)
Definition run (query : string) (vals : list Val) : list unit * option unit := ([], None).

(** 2026-10-31T00:00:00Z *)
Definition now : Time := mkTime (1793404800 * Second) 0.

(** The default parameters made at [now]. *)
Definition defaults : SearchParameters := NewSearchParameters now now.

(** Ten years of 365 days. *)
Definition ten_years : Duration := 87600 * Hour.

Definition with_ActionID (v : string) (p : SearchParameters) : SearchParameters :=
  mkSearchParameters v (ActionName p) (After p) (AgentID p) (AgentName p) (Before p)
    (CommandID p) (FoundAnything p) (InvestigatorID p) (InvestigatorName p) (Limit p)
    (Offset p) (Report p) (Status p) (Target p) (ThreatFamily p) (Type_ p).

Definition with_AgentID (v : string) (p : SearchParameters) : SearchParameters :=
  mkSearchParameters (ActionID p) (ActionName p) (After p) v (AgentName p) (Before p)
    (CommandID p) (FoundAnything p) (InvestigatorID p) (InvestigatorName p) (Limit p)
    (Offset p) (Report p) (Status p) (Target p) (ThreatFamily p) (Type_ p).

Definition with_Status (v : string) (p : SearchParameters) : SearchParameters :=
  mkSearchParameters (ActionID p) (ActionName p) (After p) (AgentID p) (AgentName p) (Before p)
    (CommandID p) (FoundAnything p) (InvestigatorID p) (InvestigatorName p) (Limit p)
    (Offset p) (Report p) v (Target p) (ThreatFamily p) (Type_ p).

Definition with_Report_Target (r t : string) (p : SearchParameters) : SearchParameters :=
  mkSearchParameters (ActionID p) (ActionName p) (After p) (AgentID p) (AgentName p) (Before p)
    (CommandID p) (FoundAnything p) (InvestigatorID p) (InvestigatorName p) (Limit p)
    (Offset p) r (Status p) t (ThreatFamily p) (Type_ p).

Definition with_window (before after : Time) (p : SearchParameters) : SearchParameters :=
  mkSearchParameters (ActionID p) (ActionName p) after (AgentID p) (AgentName p) before
    (CommandID p) (FoundAnything p) (InvestigatorID p) (InvestigatorName p) (Limit p)
    (Offset p) (Report p) (Status p) (Target p) (ThreatFamily p) (Type_ p).

(** Half an hour inside a window of ten years around [now], and a window
    of one day around [now]. *)
Definition near_ten_years : SearchParameters :=
  with_window (Add now (ten_years - 1800 * Second)) (Add now (- (ten_years - 1800 * Second)))
    defaults.

Definition one_day : SearchParameters :=
  with_window (Add now (24 * Hour)) (Add now (- (24 * Hour))) defaults.

(** The ranges resolved from the defaults. *)
Definition default_ids : IDs :=
  mkIDs zero MAXFLOAT64 zero MAXFLOAT64 zero MAXFLOAT64 zero MAXFLOAT64.

End Sample.

(** ** The query string, as a list of keys and values *)

Module QueryString.

Import GoTime Float64 Text Searches.

(** A key with its value when the condition holds, nothing otherwise. *)
Definition optional (c : bool) (k v : string) : list (string * string) :=
  if c then [(k, v)] else [].

(** The keys of the query string with their values, in order: the three
    that are always there, the filters that differ from their sentinel,
    the limit, and the offset when it is not zero. *)
Definition pairs (p : SearchParameters) : list (string * string) :=
  ([("type", Type_ p); ("after", FormatRFC3339 (After p));
    ("before", FormatRFC3339 (Before p))] ++
   optional (neq (AgentName p) "%") "agentname" (AgentName p) ++
   optional (neq (AgentID p) inf) "agentid" (AgentID p) ++
   optional (neq (ActionName p) "%") "actionname" (ActionName p) ++
   optional (neq (ActionID p) inf) "actionid" (ActionID p) ++
   optional (neq (CommandID p) inf) "commandid" (CommandID p) ++
   optional (neq (InvestigatorID p) inf) "investigatorid" (InvestigatorID p) ++
   optional (neq (InvestigatorName p) "%") "investigatorname" (InvestigatorName p) ++
   optional (neq (ThreatFamily p) "%") "threatfamily" (ThreatFamily p) ++
   optional (neq (Status p) "%") "status" (Status p) ++
   [("limit", fmt_f0 (Limit p))] ++
   optional (negb (Float64.eqb (Offset p) (of_Z 0))) "offset" (fmt_f0 (Offset p)))%list.

Definition render (kv : string * string) : string := fst kv ++ "=" ++ snd kv.

(** What follows the first pair: every further pair after an ampersand. *)
Fixpoint tail (l : list (string * string)) : string :=
  match l with
  | [] => ""
  | kv :: l' => "&" ++ render kv ++ tail l'
  end.

Definition with_Type_FoundAnything (t : string) (b : bool) (p : SearchParameters)
    : SearchParameters :=
  mkSearchParameters (ActionID p) (ActionName p) (After p) (AgentID p) (AgentName p) (Before p)
    (CommandID p) b (InvestigatorID p) (InvestigatorName p) (Limit p)
    (Offset p) (Report p) (Status p) (Target p) (ThreatFamily p) t.

Definition with_AgentName (v : string) (p : SearchParameters) : SearchParameters :=
  mkSearchParameters (ActionID p) (ActionName p) (After p) (AgentID p) v (Before p)
    (CommandID p) (FoundAnything p) (InvestigatorID p) (InvestigatorName p) (Limit p)
    (Offset p) (Report p) (Status p) (Target p) (ThreatFamily p) (Type_ p).

(** Two parameter values that differ at most in [Type] and
    [FoundAnything]. *)
Definition same_but_type_found (p p' : SearchParameters) : Prop :=
  ActionID p = ActionID p' /\ ActionName p = ActionName p' /\ After p = After p' /\
  AgentID p = AgentID p' /\ AgentName p = AgentName p' /\ Before p = Before p' /\
  CommandID p = CommandID p' /\
  InvestigatorID p = InvestigatorID p' /\ InvestigatorName p = InvestigatorName p' /\
  Limit p = Limit p' /\ Offset p = Offset p' /\ Report p = Report p' /\
  Status p = Status p' /\ Target p = Target p' /\ ThreatFamily p = ThreatFamily p'.

End QueryString.

(** ** All the blocks of a routine *)

Module Blocks.

Import GoTime Float64 Text Searches Filters.

(** The blocks a routine walks through, in order (for the actions search
    the threat-family block comes last, after the join text). *)
Definition blocks_of (StatusSuccess : string) (e : Entity) (p : SearchParameters) (ids : IDs)
    (doFoundAnything : bool) (now1 now2 : Time) : list (Clause Val) :=
  match e with
  | Commands => SearchCommands_clauses StatusSuccess p ids doFoundAnything now1 now2
  | Actions => (SearchActions_clauses p ids now1 now2 ++ [SearchActions_threat p])%list
  | Agents => SearchAgents_clauses p ids now1 now2
  | Investigators => SearchInvestigators_clauses p ids now1 now2
  end.

(** A block is well formed when it adds to [valctr] the number of values
    it appends. *)
Definition well_formed {V} (c : Clause V) : Prop :=
  c_slots c = Z.of_nat (List.length (c_vals c)).

(** A builder is consistent when [valctr] counts the values bound. *)
Definition consistent {V} (b : Builder V) : Prop :=
  b_valctr b = Z.of_nat (List.length (b_vals b)).

(** Two blocks that are the same, or whose tests both fail. *)
Definition alike {V} (c c' : Clause V) : Prop :=
  c = c' \/ (c_if c = false /\ c_if c' = false).

(** The outcomes of the tests when no filter is set and no bound of the
    window is in force. *)
Definition nothing_set (d : bool) : Active :=
  mkActive false false false false false false false false false false false d.

(** The commands of action 42: the parameters, the ranges they resolve
    to, and the block of the action identifier. *)
Definition action_42 : SearchParameters := Sample.with_ActionID "42" Sample.defaults.

Definition ids_42 : IDs :=
  set_maxActionID (of_Z 42) (set_minActionID (of_Z 42) Sample.default_ids).

Definition block_42 : Clause Val :=
  and_clause true (fmt2 "actions.id >= $" " AND actions.id <= $" "")
    [VFloat (of_Z 42); VFloat (of_Z 42)] 2 [].

(** The [AND] a block starts with when a value has been bound before. *)
Definition separator {V} (c : Clause V) (n : Z) : string :=
  if c_and c && (0 <? n) then " AND " else "".

End Blocks.

(** ** The joins of a statement, read back from its text *)

Module JoinOrder.

Import Text Searches SQLText Filters Skeleton JoinRules Checks.

(** The joins of a word list: for every [JOIN t ON ( a.x = b.y )] the
    table [t] joined and the tables [a] and [b] of its condition. *)
Fixpoint join_conditions (ws : list string) : list (string * string * string) :=
  match ws with
  | [] => []
  | w :: ws' =>
      (if String.eqb w "JOIN" then
         match ws' with
         | t :: on :: par :: l :: eq :: r :: _ =>
             if String.eqb on "ON" && String.eqb par "(" && String.eqb eq "="
             then [(t, before_first "." l, before_first "." r)] else []
         | _ => []
         end
       else []) ++ join_conditions ws'
  end.

Definition joined (j : string * string * string) : string := fst (fst j).

(** The joins of a statement: those that stand before its [WHERE]. *)
Definition joins_of (text : string) : list (string * string * string) :=
  join_conditions (words (before_first "WHERE " text)).

(** A join can be made when its condition ties the table it brings in to
    a table that is already there. *)
Fixpoint usable (declared : list string) (js : list (string * string * string)) : bool :=
  match js with
  | [] => true
  | (t, l, r) :: js' =>
      ((String.eqb l t && known declared r) || (String.eqb r t && known declared l)) &&
      usable (declared ++ [t]) js'
  end.

Definition join_order_check (e : Entity) (a : Active) : bool :=
  let t := fst (skeleton e a) in
  strings_eqb (map joined (joins_of t)) (joined_tables t) &&
  usable [primary e] (joins_of t).

End JoinOrder.

(** ** Running a statement and reading its rows

    The second half of every search routine: the statement is prepared
    and run, every row is scanned into the variables of one iteration,
    its documents are decoded, the lookups on its action are made, and the
    record is appended.  The store, the record types of package [mig] and
    the decoders are not part of the file; they are the variables of the
    section. *)

Module Hydration.

Import Searches.

(** A Go [error], as the message it prints. *)
Definition error := string.

Inductive result (A : Type) :=
| Ok (a : A)
| Err (e : error).
Arguments Ok {A}.
Arguments Err {A}.

Definition bind {A B} (r : result A) (k : A -> result B) : result B :=
  match r with
  | Ok a => k a
  | Err e => Err e
  end.

Notation "x <- r ;; k" := (bind r (fun x => k))
  (at level 61, r at next level, right associativity).

(** [err = fmt.Errorf(msg + "'%v'", err)] on failure. *)
Definition wrap {A} (msg : string) (r : result A) : result A :=
  match r with
  | Ok a => Ok a
  | Err e => Err (msg ++ e ++ "'")
  end.

(** What a row cursor yields: the rows for which [rows.Next()] is true,
    and what [rows.Err()] reports afterwards. *)
Record Cursor (Row : Type) := mkCursor {
  delivered : list Row;
  final : option error
}.
Arguments mkCursor {Row}.
Arguments delivered {Row}.
Arguments final {Row}.

(** The steps that follow the scan of a row. *)
Inductive Stage :=
| UnmarshalThreat | UnmarshalResults | UnmarshalDescription | UnmarshalOperations
| UnmarshalSignatures | UnmarshalAgentTags | UnmarshalAgentEnv
| GetActionCounters | InvestigatorByActionID.

(** The message each step fails with. *)
Definition stage_message (st : Stage) : string :=
  match st with
  | UnmarshalThreat => "Failed to unmarshal action threat: '"
  | UnmarshalResults => "Failed to unmarshal command results: '"
  | UnmarshalDescription => "Failed to unmarshal action description: '"
  | UnmarshalOperations => "Failed to unmarshal action operations: '"
  | UnmarshalSignatures => "Failed to unmarshal action signatures: '"
  | UnmarshalAgentTags => "Failed to unmarshal agent tags: '"
  | UnmarshalAgentEnv => "Failed to unmarshal agent environment: '"
  | GetActionCounters => "Failed to retrieve action counters: '"
  | InvestigatorByActionID => "Failed to retrieve action investigators: '"
  end.

(** The steps of each routine, the message its scan fails with, and the
    message a failed run of its statement gets. *)
Definition stages_of (e : Entity) : list Stage :=
  match e with
  | Commands => [UnmarshalThreat; UnmarshalResults; UnmarshalDescription;
                 UnmarshalOperations; UnmarshalSignatures; UnmarshalAgentTags;
                 UnmarshalAgentEnv; GetActionCounters; InvestigatorByActionID]
  | Actions => [UnmarshalThreat; UnmarshalDescription; UnmarshalOperations;
                UnmarshalSignatures; GetActionCounters; InvestigatorByActionID]
  | Agents => []
  | Investigators => []
  end.

Definition scan_message (e : Entity) : string :=
  match e with
  | Commands => "Failed to retrieve command: '"
  | Actions => "Error while retrieving action: '"
  | Agents => "Failed to retrieve agent data: '"
  | Investigators => "Failed to retrieve investigator data: '"
  end.

Definition find_message (e : Entity) : string :=
  match e with
  | Commands => "Error while finding commands: '"
  | Actions => "Error while finding actions: '"
  | Agents => "Error while finding agents: '"
  | Investigators => "Error while finding investigators: '"
  end.

(** The calls a routine makes on the store: [db.c.Prepare] with the
    statement, [stmt.Query] with the values, and the two lookups on the
    action of a row, [db.GetActionCounters] and
    [db.InvestigatorByActionID]. *)
Inductive Call :=
| Prepared (query : string)
| Ran (vals : list Val)
| Looked (st : Stage).

(** The steps that call the store; the others decode a document. *)
Definition is_lookup (st : Stage) : bool :=
  match st with
  | GetActionCounters | InvestigatorByActionID => true
  | _ => false
  end.

Definition lookups_of (e : Entity) : list Stage := filter is_lookup (stages_of e).

Section Store.

(** [Stmt] and [Row] are the driver's statements and rows; [S] holds the
    variables of one iteration (the record being filled and the raw
    columns), [R] is the record appended. *)
Variables (Stmt Row S R : Type).

(** [db.c.Prepare] and [stmt.Query]. *)
Variable Prepare : string -> result Stmt.
Variable Query : Stmt -> list Val -> result (Cursor Row).

(** [rows.Scan] into fresh variables, each later step on these
    variables, and the record they hold in the end. *)
Variable scan : Row -> result S.
Variable perform : Stage -> S -> result S.
Variable record : S -> R.

(** The steps after the scan, each failing with its own message. *)
Fixpoint perform_all (sts : list Stage) (s : S) : result S :=
  match sts with
  | [] => Ok s
  | st :: sts' =>
      s' <- wrap (stage_message st) (perform st s) ;;
      perform_all sts' s'
  end.

(** The body of the loop, for one row. *)
Definition hydrate (e : Entity) (row : Row) : result R :=
  s <- wrap (scan_message e) (scan row) ;;
  s <- perform_all (stages_of e) s ;;
  Ok (record s).

(** The loop: [acc] is the collection so far; the first failure returns
    it together with the error. *)
Fixpoint read_rows (e : Entity) (rows : list Row) (acc : list R) : list R * option error :=
  match rows with
  | [] => (acc, None)
  | row :: rows' =>
      match hydrate e row with
      | Err err => (acc, Some err)
      | Ok r => read_rows e rows' (acc ++ [r])
      end
  end.

(** From [db.c.Prepare] to the final [return].  The [err] of the last
    [if] statement is a variable of that statement: what it is set to
    does not reach the result. *)
Definition execute (e : Entity) (query : string) (vals : list Val) : list R * option error :=
  match Prepare query with
  | Err err =>
      ([], Some ("Error while preparing search statement: '" ++ err ++ "' in '" ++ query ++ "'"))
  | Ok stmt =>
      match Query stmt vals with
      | Err err => ([], Some (find_message e ++ err ++ "'"))
      | Ok rows =>
          let (found, err) := read_rows e (delivered rows) [] in
          let inner := option_map (fun err' => "Failed to complete database query: '" ++ err' ++ "'")
                         (final rows) in
          (found, err)
      end
  end.

(** The same, with the calls made on the store on the way, in order: a
    step that is a lookup is a call whether it fails or not. *)
Fixpoint perform_all_traced (sts : list Stage) (s : S) : result S * list Call :=
  match sts with
  | [] => (Ok s, [])
  | st :: sts' =>
      let call := if is_lookup st then [Looked st] else [] in
      match wrap (stage_message st) (perform st s) with
      | Ok s' => let (r, cs) := perform_all_traced sts' s' in (r, (call ++ cs)%list)
      | Err err => (Err err, call)
      end
  end.

Definition hydrate_traced (e : Entity) (row : Row) : result R * list Call :=
  match wrap (scan_message e) (scan row) with
  | Ok s =>
      let (r, cs) := perform_all_traced (stages_of e) s in
      (match r with Ok s' => Ok (record s') | Err err => Err err end, cs)
  | Err err => (Err err, [])
  end.

Fixpoint read_rows_traced (e : Entity) (rows : list Row) (acc : list R)
    : (list R * option error) * list Call :=
  match rows with
  | [] => ((acc, None), [])
  | row :: rows' =>
      let (r, cs) := hydrate_traced e row in
      match r with
      | Err err => ((acc, Some err), cs)
      | Ok x =>
          let (out, cs') := read_rows_traced e rows' (acc ++ [x]) in (out, (cs ++ cs')%list)
      end
  end.

Definition execute_traced (e : Entity) (query : string) (vals : list Val)
    : (list R * option error) * list Call :=
  match Prepare query with
  | Err err =>
      (([], Some ("Error while preparing search statement: '" ++ err ++ "' in '" ++ query ++ "'")),
       [Prepared query])
  | Ok stmt =>
      match Query stmt vals with
      | Err err => (([], Some (find_message e ++ err ++ "'")), [Prepared query; Ran vals])
      | Ok rows =>
          let (out, cs) := read_rows_traced e (delivered rows) [] in
          (out, Prepared query :: Ran vals :: cs)
      end
  end.

End Store.

(** A store for examples: every statement prepares and runs, the rows are
    numbers, the row 2 does not scan, and the cursor reports a lost
    connection once its rows are read. *)
Module Example.

Definition Prepare (query : string) : result string := Ok query.

Definition Query (rows : list nat) (stmt : string) (vals : list Val) : result (Cursor nat) :=
  Ok (mkCursor rows (Some "connection reset")).

Definition scan (row : nat) : result nat :=
  if Nat.eqb row 2 then Err "converting NULL to string is unsupported" else Ok row.

Definition perform (st : Stage) (s : nat) : result nat := Ok s.

Definition record (s : nat) : nat := s.

End Example.

End Hydration.

(** ** Properties *)

Module Properties.

Import GoTime Float64 Text Searches SQLText Filters Skeleton JoinRules Checks.

(** *** Generic facts *)

Lemma every_spec (f : bool -> bool) : every f = true -> forall b, f b = true.
Proof.
  unfold every. intros H b. apply andb_true_iff in H. destruct H, b; assumption.
Qed.

Lemma every_active_spec (chk : Active -> bool) :
  every_active chk = true -> forall a, chk a = true.
Proof.
  unfold every_active. intros H [b1 b2 b3 b4 b5 b6 b7 b8 b9 b10 b11 b12].
  apply every_spec with (b := b1) in H. apply every_spec with (b := b2) in H.
  apply every_spec with (b := b3) in H. apply every_spec with (b := b4) in H.
  apply every_spec with (b := b5) in H. apply every_spec with (b := b6) in H.
  apply every_spec with (b := b7) in H. apply every_spec with (b := b8) in H.
  apply every_spec with (b := b9) in H. apply every_spec with (b := b10) in H.
  apply every_spec with (b := b11) in H. apply every_spec with (b := b12) in H.
  exact H.
Qed.

Lemma every_entity_spec (chk : Entity -> Active -> bool) :
  every_entity chk = true -> forall e a, chk e a = true.
Proof.
  unfold every_entity. intros H e a.
  pose proof (every_active_spec _ H a) as Ha. cbv beta in Ha. clear H.
  rename Ha into H.
  rewrite forallb_forall in H. apply H. destruct e; simpl; auto.
Qed.

Lemma strings_eqb_eq l1 l2 : strings_eqb l1 l2 = true -> l1 = l2.
Proof.
  revert l2. induction l1 as [|a l1 IH]; destruct l2 as [|b l2]; simpl; try discriminate; auto.
  intros H. apply andb_true_iff in H. destruct H as [H1 H2].
  apply String.eqb_eq in H1. subst. f_equal. auto.
Qed.

Lemma numbers_eqb_eq l1 l2 : numbers_eqb l1 l2 = true -> l1 = l2.
Proof.
  revert l2. induction l1 as [|a l1 IH]; destruct l2 as [|b l2]; simpl; try discriminate; auto.
  intros H. apply andb_true_iff in H. destruct H as [H1 H2].
  apply Z.eqb_eq in H1. subst. f_equal. auto.
Qed.

Lemma slot_eqb_eq x y : slot_eqb x y = true -> x = y.
Proof. destruct x, y; simpl; intro H; try discriminate; reflexivity. Qed.

Lemma slots_eqb_eq l1 l2 : slots_eqb l1 l2 = true -> l1 = l2.
Proof.
  revert l2. induction l1 as [|a l1 IH]; destruct l2 as [|b l2]; simpl; try discriminate; auto.
  intros H. apply andb_true_iff in H. destruct H as [H1 H2].
  apply slot_eqb_eq in H1. subst. f_equal. auto.
Qed.

(** *** The query of the program is an instance of its skeleton *)

Lemma emit_cmap {V W} (f : V -> W) (b : Builder V) (c : Clause V) :
  emit (bmap f b) (cmap f c) = bmap f (emit b c).
Proof.
  destruct b as [t vs n j], c as [ci ca cf cv ck cj].
  unfold emit, bmap, cmap;
    cbn [c_if c_and c_fmt c_vals c_slots c_joins b_text b_vals b_valctr b_joins].
  destruct ci; [|reflexivity].
  cbn [b_text b_vals b_valctr b_joins]. rewrite map_app. reflexivity.
Qed.

Lemma emit_all_cmap {V W} (f : V -> W) (cs : list (Clause V)) (b : Builder V) :
  emit_all (map (cmap f) cs) (bmap f b) = bmap f (emit_all cs b).
Proof.
  revert b. induction cs as [|c cs IH]; intro b; [reflexivity|].
  cbn [map emit_all fold_left]. rewrite emit_cmap. apply IH.
Qed.

Lemma start_bmap {V W} (f : V -> W) (t : string) :
  mkBuilder t (@nil W) 0 no_joins = bmap f (mkBuilder t [] 0 no_joins).
Proof. reflexivity. Qed.

Ltac finish_assemble :=
  match goal with
  | |- context [bmap ?f ?b] =>
      generalize b; intros [t vs n j];
      unfold bmap; cbn [b_text b_vals b_valctr b_joins fst snd];
      rewrite map_app; reflexivity
  end.

Lemma SearchCommands_assemble_map {V W} (f : V -> W) cs l o :
  SearchCommands_assemble (map (cmap f) cs) (f l) (f o) =
  (fst (SearchCommands_assemble cs l o), map f (snd (SearchCommands_assemble cs l o))).
Proof.
  unfold SearchCommands_assemble. rewrite (start_bmap f), emit_all_cmap. finish_assemble.
Qed.

Lemma SearchActions_assemble_map {V W} (f : V -> W) cs th l o :
  SearchActions_assemble (map (cmap f) cs) (cmap f th) (f l) (f o) =
  (fst (SearchActions_assemble cs th l o), map f (snd (SearchActions_assemble cs th l o))).
Proof.
  unfold SearchActions_assemble. rewrite (start_bmap f), emit_all_cmap.
  cbv zeta. rewrite emit_cmap.
  replace (b_joins (bmap f (emit_all cs (mkBuilder "" [] 0 no_joins))))
    with (b_joins (emit_all cs (mkBuilder "" (@nil V) 0 no_joins))) by reflexivity.
  generalize (SearchActions_join (b_joins (emit_all cs (mkBuilder "" (@nil V) 0 no_joins)))).
  intro jn. finish_assemble.
Qed.

Lemma SearchAgents_assemble_map {V W} (f : V -> W) cs l o :
  SearchAgents_assemble (map (cmap f) cs) (f l) (f o) =
  (fst (SearchAgents_assemble cs l o), map f (snd (SearchAgents_assemble cs l o))).
Proof.
  unfold SearchAgents_assemble. rewrite (start_bmap f), emit_all_cmap. finish_assemble.
Qed.

Lemma SearchInvestigators_assemble_map {V W} (f : V -> W) cs l o :
  SearchInvestigators_assemble (map (cmap f) cs) (f l) (f o) =
  (fst (SearchInvestigators_assemble cs l o), map f (snd (SearchInvestigators_assemble cs l o))).
Proof.
  unfold SearchInvestigators_assemble. rewrite (start_bmap f), emit_all_cmap. finish_assemble.
Qed.

(** *** The exhaustive checks *)

Lemma joins_checked : every_entity joins_check = true.
Proof. vm_compute. reflexivity. Qed.

Lemma placeholders_checked : every_entity placeholders_check = true.
Proof. vm_compute. reflexivity. Qed.

Lemma bindings_checked : every_entity bindings_check = true.
Proof. vm_compute. reflexivity. Qed.

Lemma window_checked : every_entity window_check = true.
Proof. vm_compute. reflexivity. Qed.



Lemma status_alias_checked : every_active status_alias_check = true.
Proof. vm_compute. reflexivity. Qed.

Section Instance.

Set Default Proof Using "Type".

Variable StatusSuccess : string.
Variable uint64_other : float64 -> Z.
Variable ParseFloat : string -> float64 * option NumError.

Lemma query_of_skeleton e p ids doFA now1 now2 :
  query_of StatusSuccess uint64_other e p ids doFA now1 now2 =
  (fst (skeleton e (active_of p doFA now1 now2)),
   map (denote StatusSuccess uint64_other p ids) (snd (skeleton e (active_of p doFA now1 now2)))).
Proof.
  destruct e; unfold query_of, skeleton.
  - exact (SearchActions_assemble_map (denote StatusSuccess uint64_other p ids)
             (actions_shape (active_of p doFA now1 now2))
             (actions_threat_shape (active_of p doFA now1 now2)) SLimit SOffset).
  - exact (SearchCommands_assemble_map (denote StatusSuccess uint64_other p ids)
             (commands_shape (active_of p doFA now1 now2)) SLimit SOffset).
  - exact (SearchAgents_assemble_map (denote StatusSuccess uint64_other p ids)
             (agents_shape (active_of p doFA now1 now2)) SLimit SOffset).
  - exact (SearchInvestigators_assemble_map (denote StatusSuccess uint64_other p ids)
             (investigators_shape (active_of p doFA now1 now2)) SLimit SOffset).
Qed.

Lemma query_text e p ids doFA now1 now2 :
  fst (query_of StatusSuccess uint64_other e p ids doFA now1 now2) =
  fst (skeleton e (active_of p doFA now1 now2)).
Proof. rewrite query_of_skeleton. reflexivity. Qed.

Lemma query_vals e p ids doFA now1 now2 :
  snd (query_of StatusSuccess uint64_other e p ids doFA now1 now2) =
  map (denote StatusSuccess uint64_other p ids) (snd (skeleton e (active_of p doFA now1 now2))).
Proof. rewrite query_of_skeleton. reflexivity. Qed.


Lemma actions_query_of p ids doFA now1 now2 :
  SearchActions_query uint64_other p ids now1 now2 =
  query_of StatusSuccess uint64_other Actions p ids doFA now1 now2.
Proof. reflexivity. Qed.

Lemma is_set_is_on p doFA now1 now2 f :
  is_set p f = is_on (active_of p doFA now1 now2) f.
Proof. destruct f; reflexivity. Qed.

(** *** Joins *)

Lemma required_ext (s1 s2 : Filter -> bool) e j :
  (forall f, s1 f = s2 f) -> required s1 e j = required s2 e j.
Proof.
  intro H. unfold required, all_filters. cbn [existsb]. rewrite !H. reflexivity.
Qed.

Lemma expected_tables_ext (s1 s2 : Filter -> bool) e :
  (forall f, s1 f = s2 f) -> expected_tables s1 e = expected_tables s2 e.
Proof.
  intro H. destruct e; unfold expected_tables; try reflexivity;
    cbn [final_joins flat_map fst snd]; rewrite !(required_ext s1 s2) by assumption; reflexivity.
Qed.

(** C1.  Every search joins exactly the tables that the join-inference
    rules ask for, given the filters that are set: each one once, in the
    stated order; the commands search joins actions, signatures,
    investigators and agents whatever the filters. *)
Theorem C1_joined_tables e p ids doFoundAnything now1 now2 :
  joined_tables (fst (query_of StatusSuccess uint64_other e p ids doFoundAnything now1 now2)) =
  expected_tables (is_set p) e.
Proof.
  rewrite query_text.
  rewrite (expected_tables_ext (is_set p) (is_on (active_of p doFoundAnything now1 now2)))
    by (intro f; apply is_set_is_on).
  apply strings_eqb_eq.
  exact (every_entity_spec joins_check joins_checked e _).
Qed.

(** *** Positional parameters *)

Lemma expected_parameters_ext e (s1 s2 : Filter -> bool) b a f :
  (forall x, s1 x = s2 x) ->
  expected_parameters e s1 b a f = expected_parameters e s2 b a f.
Proof.
  intro H. unfold expected_parameters, all_filters. cbn [fold_right].
  rewrite !H. reflexivity.
Qed.

Lemma binding_ok_sound p ids ls lhs op n :
  binding_ok ls (lhs, op, n) = true ->
  exists s, bound_to lhs op = Some s /\
    nth_error (map (denote StatusSuccess uint64_other p ids) ls) (Z.to_nat (n - 1)) =
    Some (denote StatusSuccess uint64_other p ids s).
Proof.
  unfold binding_ok. cbn [fst snd].
  destruct (bound_to lhs op) as [s|]; [|discriminate].
  destruct (nth_error ls (Z.to_nat (n - 1))) as [s'|] eqn:E; [|discriminate].
  intro H. apply slot_eqb_eq in H. subst s'.
  exists s. split; [reflexivity|].
  rewrite nth_error_map, E. reflexivity.
Qed.

Lemma is_keyword_sound k n bs :
  existsb (is_keyword k n) bs = true -> exists w, In (w, k, n) bs.
Proof.
  rewrite existsb_exists. intros [[[w k'] n'] [Hin H]].
  unfold is_keyword in H. cbn [fst snd] in H.
  apply andb_true_iff in H. destruct H as [H1 H2].
  apply String.eqb_eq in H1. apply Z.eqb_eq in H2. subst. exists w. exact Hin.
Qed.

(** C8.  In the query of every routine the positional parameters are
    exactly [$1 ... $N], in the order of the predicates, [N] being the
    number of bound values: one per time bound in force, two per range
    clause, one per pattern clause, four for the found-anything clause and
    two for [LIMIT] and [OFFSET].  The value at each position is the one
    that the comparison holding the parameter asks for, and the last two
    parameters are those of [LIMIT] and [OFFSET], bound to the limit and the
    offset (converted to [uint64], as the routine does). *)
Theorem C8_positional_parameters e p ids doFoundAnything now1 now2 :
  let q := query_of StatusSuccess uint64_other e p ids doFoundAnything now1 now2 in
  let n := Z.of_nat (List.length (snd q)) in
  placeholders (fst q) = count_from 1 (List.length (snd q)) /\
  n = expected_parameters e (is_set p) (before_set p now1) (after_set p now2) doFoundAnything /\
  map snd (bindings (words (fst q))) = placeholders (fst q) /\
  (forall lhs op k, In (lhs, op, k) (bindings (words (fst q))) ->
     exists s, bound_to lhs op = Some s /\
       nth_error (snd q) (Z.to_nat (k - 1)) = Some (denote StatusSuccess uint64_other p ids s)) /\
  (exists w, In (w, "LIMIT", n - 1) (bindings (words (fst q)))) /\
  (exists w, In (w, "OFFSET", n) (bindings (words (fst q)))) /\
  nth_error (snd q) (Z.to_nat (n - 2)) = Some (VUint64 (uint64 uint64_other (Limit p))) /\
  nth_error (snd q) (Z.to_nat (n - 1)) = Some (VUint64 (uint64 uint64_other (Offset p))).
Proof.
  cbv zeta. rewrite query_text, query_vals, length_map.
  set (a := active_of p doFoundAnything now1 now2).
  pose proof (every_entity_spec _ placeholders_checked e a) as H1.
  pose proof (every_entity_spec _ bindings_checked e a) as H2.
  unfold placeholders_check in H1. unfold bindings_check in H2.
  destruct (skeleton e a) as [t ls]. cbn [fst snd]. cbv zeta in H2.
  apply andb_true_iff in H1. destruct H1 as [Hp Hn].
  apply numbers_eqb_eq in Hp. apply Z.eqb_eq in Hn.
  repeat (apply andb_true_iff in H2; let H := fresh "H" in destruct H2 as [H2 H]).
  apply numbers_eqb_eq in H2. rewrite forallb_forall in H1.
  apply is_keyword_sound in H0, H.
  assert (Hb : forall lhs op k, In (lhs, op, k) (bindings (words t)) ->
     exists s, bound_to lhs op = Some s /\
       nth_error (map (denote StatusSuccess uint64_other p ids) ls) (Z.to_nat (k - 1)) =
       Some (denote StatusSuccess uint64_other p ids s)).
  { intros lhs op k Hin. apply binding_ok_sound. apply H1. exact Hin. }
  split; [exact Hp|]. split.
  { rewrite Hn. apply expected_parameters_ext. intro f. symmetry. apply is_set_is_on. }
  split; [exact H2|]. split; [exact Hb|]. split; [exact H0|]. split; [exact H|].
  destruct H0 as [w0 Hl]. destruct H as [w1 Ho].
  destruct (Hb _ _ _ Hl) as [s [Hs Hv]]. destruct (Hb _ _ _ Ho) as [s' [Hs' Hv']].
  cbv in Hs, Hs'. injection Hs as <-. injection Hs' as <-.
  replace (Z.of_nat (List.length ls) - 1 - 1) with (Z.of_nat (List.length ls) - 2) in Hv by lia.
  split; assumption.
Qed.

(** *** The time window *)

Lemma timestamps_denote p ids ls :
  timestamps (map (denote StatusSuccess uint64_other p ids) ls) =
  map (fun s => match s with SBefore => Before p | _ => After p end) (time_slots ls).
Proof.
  induction ls as [|s ls IH]; [reflexivity|].
  destruct s; cbn [map timestamps flat_map time_slots filter denote app];
    fold (timestamps (map (denote StatusSuccess uint64_other p ids) ls));
    fold (time_slots ls); rewrite IH; reflexivity.
Qed.

Lemma window_facts e p ids doFoundAnything now1 now2 :
  let q := query_of StatusSuccess uint64_other e p ids doFoundAnything now1 now2 in
  mentions (before_predicate e) (where_clause (fst q)) = before_set p now1 /\
  mentions (after_predicate e) (where_clause (fst q)) = after_set p now2 /\
  timestamps (snd q) =
    ((if before_set p now1 then [Before p] else []) ++
     (if after_set p now2 then [After p] else []))%list.
Proof.
  cbv zeta. rewrite query_text, query_vals, timestamps_denote.
  set (a := active_of p doFoundAnything now1 now2).
  pose proof (every_entity_spec _ window_checked e a) as H.
  unfold window_check in H. destruct (skeleton e a) as [t ls]. cbv zeta in H.
  cbn [fst snd].
  apply andb_true_iff in H. destruct H as [H H3].
  apply andb_true_iff in H. destruct H as [H1 H2].
  apply eqb_prop in H1. apply eqb_prop in H2. apply slots_eqb_eq in H3.
  rewrite H1, H2, H3. change (on_before a) with (before_set p now1).
  change (on_after a) with (after_set p now2).
  repeat split. destruct (before_set p now1), (after_set p now2); reflexivity.
Qed.

(** C5.  In each of the four routines a bound of the time window yields a
    clause only when it differs from the default boundary by more than one
    hour: a [Before] (respectively [After]) within one hour of the
    boundary yields no clause on its column and binds no timestamp.  The
    boundary is [now + D] (respectively [now - D]) for any [D] that is at
    least the default search period: the period of the source as well as
    a full ten years. *)
Theorem C5_time_window e p ids doFoundAnything now1 now2 (D : Duration) :
  defaultSearchPeriod <= D ->
  let q := query_of StatusSuccess uint64_other e p ids doFoundAnything now1 now2 in
  let w := where_clause (fst q) in
  (Z.abs (instant (Before p) - (instant now1 + D)) <= Hour ->
     mentions (before_predicate e) w = false /\
     timestamps (snd q) = if after_set p now2 then [After p] else []) /\
  (Z.abs (instant (After p) - (instant now2 - D)) <= Hour ->
     mentions (after_predicate e) w = false /\
     timestamps (snd q) = if before_set p now1 then [Before p] else []) /\
  (mentions (before_predicate e) w = true ->
     Hour < (instant now1 + D) - instant (Before p)) /\
  (mentions (after_predicate e) w = true ->
     Hour < instant (After p) - (instant now2 - D)).
Proof.
  intros HD q w.
  destruct (window_facts e p ids doFoundAnything now1 now2) as [Hb [Ha Ht]].
  fold q in Hb, Ha, Ht. fold w in Hb, Ha.
  assert (Eb : before_set p now1 = true <->
               instant (Before p) < instant now1 + (defaultSearchPeriod - Hour)).
  { unfold before_set, GoTime.Before, Add. cbn [instant]. apply Z.ltb_lt. }
  assert (Ea : after_set p now2 = true <->
               instant now2 + - (defaultSearchPeriod - Hour) < instant (After p)).
  { unfold after_set, GoTime.After, Add. cbn [instant]. apply Z.ltb_lt. }
  repeat split.
  - rewrite Hb. destruct (before_set p now1); [|reflexivity].
    destruct Eb as [Eb _]. specialize (Eb eq_refl). lia.
  - rewrite Ht. destruct (before_set p now1); [|reflexivity].
    destruct Eb as [Eb _]. specialize (Eb eq_refl). lia.
  - rewrite Ha. destruct (after_set p now2); [|reflexivity].
    destruct Ea as [Ea _]. specialize (Ea eq_refl). lia.
  - rewrite Ht. destruct (after_set p now2).
    + destruct Ea as [Ea _]. specialize (Ea eq_refl). lia.
    + apply app_nil_r.
  - rewrite Hb. intro H. apply Eb in H. lia.
  - rewrite Ha. intro H. apply Ea in H. lia.
Qed.

(** *** Sentinels *)



(** *** The range resolver *)

(** What the resolver returns, spelt out: every identifier filter is
    either the sentinel or parses, and the ranges are as resolved; or the
    first one that does not parse fails, with its error. *)
Definition resolved (p : SearchParameters) (f : Filter) : float64 * float64 :=
  if is_set p f
  then (fst (ParseFloat (value p f)), fst (ParseFloat (value p f)))
  else (zero, MAXFLOAT64).

Definition accepted (p : SearchParameters) (f : Filter) : Prop :=
  is_set p f = true -> snd (ParseFloat (value p f)) = None.

Lemma resolver_cases p :
  (snd (makeIDsFromParams ParseFloat p) = None /\
   (forall f, In f identifier_filters -> accepted p f) /\
   (forall f, In f identifier_filters ->
      range_of f (fst (makeIDsFromParams ParseFloat p)) = resolved p f)) \/
  (exists f err, In f identifier_filters /\ is_set p f = true /\
     snd (ParseFloat (value p f)) = Some err /\
     snd (makeIDsFromParams ParseFloat p) = Some err).
Proof.
  unfold makeIDsFromParams, resolve, accepted, resolved, is_set, identifier_filters.
  cbn [value sentinel is_identifier].
  destruct (neq (ActionID p) inf) eqn:E1;
    [destruct (ParseFloat (ActionID p)) as [v1 [e1|]] eqn:P1|];
    try (right; exists FActionID, e1; cbn [In value sentinel is_identifier]; rewrite ?P1, ?E1; cbn [fst snd];
         repeat split; try reflexivity; try assumption;
         repeat (first [left; reflexivity | right]));
  (destruct (neq (CommandID p) inf) eqn:E2;
    [destruct (ParseFloat (CommandID p)) as [v2 [e2|]] eqn:P2|];
    try (right; exists FCommandID, e2; cbn [In value sentinel is_identifier]; rewrite ?P2, ?E2; cbn [fst snd];
         repeat split; try reflexivity; try assumption;
         repeat (first [left; reflexivity | right])));
  (destruct (neq (AgentID p) inf) eqn:E3;
    [destruct (ParseFloat (AgentID p)) as [v3 [e3|]] eqn:P3|];
    try (right; exists FAgentID, e3; cbn [In value sentinel is_identifier]; rewrite ?P3, ?E3; cbn [fst snd];
         repeat split; try reflexivity; try assumption;
         repeat (first [left; reflexivity | right])));
  (destruct (neq (InvestigatorID p) inf) eqn:E4;
    [destruct (ParseFloat (InvestigatorID p)) as [v4 [e4|]] eqn:P4|];
    try (right; exists FInvestigatorID, e4; cbn [In value sentinel is_identifier]; rewrite ?P4, ?E4; cbn [fst snd];
         repeat split; try reflexivity; try assumption;
         repeat (first [left; reflexivity | right])));
  left; cbn [fst snd]; (split; [reflexivity|]);
  (split; intros f [<-|[<-|[<-|[<-|[]]]]]; cbn [value range_of sentinel is_identifier];
   rewrite ?E1, ?E2, ?E3, ?E4, ?P1, ?P2, ?P3, ?P4; cbn [fst snd]; try reflexivity; try discriminate).
Qed.


Lemma MAXFLOAT64_value : trunc MAXFLOAT64 = Some (2 ^ 53 - 1) /\ trunc zero = Some 0.
Proof. split; reflexivity. Qed.

Section Store.

Variables (StoreError Command Action Agent Investigator : Type).
Variable runCommands : string -> list Val -> list Command * option StoreError.
Variable runActions : string -> list Val -> list Action * option StoreError.
Variable runAgents : string -> list Val -> list Agent * option StoreError.
Variable runInvestigators : string -> list Val -> list Investigator * option StoreError.

Lemma search_bad_filter {R} (run : string -> list Val -> list R * option StoreError)
    build p err :
  snd (makeIDsFromParams ParseFloat p) = Some err ->
  search ParseFloat StoreError run build p = mkOutcome [] (Some (BadFilter err)) [].
Proof.
  unfold search. destruct (makeIDsFromParams ParseFloat p) as [ids e]. cbn [snd].
  intros ->. reflexivity.
Qed.

(** C2.  The resolver maps every identifier filter to a closed range: the
    sentinel to [[0, 2^53-1]], a filter that parses as [v] to [[v, v]].
    It fails exactly when some identifier filter that is not the sentinel
    does not parse; the error is then that of such a filter, and each of
    the four routines returns it at once, with no record and without
    sending anything to the store. *)
Theorem C2_range_resolver p :
  let r := makeIDsFromParams ParseFloat p in
  (snd r = None <-> forall f, In f identifier_filters -> accepted p f) /\
  (snd r = None -> forall f, In f identifier_filters ->
     range_of f (fst r) = if is_set p f
                          then (fst (ParseFloat (value p f)), fst (ParseFloat (value p f)))
                          else (zero, MAXFLOAT64)) /\
  (forall err, snd r = Some err ->
     (exists f, In f identifier_filters /\ is_set p f = true /\
                snd (ParseFloat (value p f)) = Some err) /\
     forall doFoundAnything now1 now2,
       SearchCommands StatusSuccess uint64_other ParseFloat StoreError Command runCommands
         p doFoundAnything now1 now2 = mkOutcome [] (Some (BadFilter err)) [] /\
       SearchActions uint64_other ParseFloat StoreError Action runActions
         p now1 now2 = mkOutcome [] (Some (BadFilter err)) [] /\
       SearchAgents uint64_other ParseFloat StoreError Agent runAgents
         p now1 now2 = mkOutcome [] (Some (BadFilter err)) [] /\
       SearchInvestigators uint64_other ParseFloat StoreError Investigator runInvestigators
         p now1 now2 = mkOutcome [] (Some (BadFilter err)) []) /\
  trunc zero = Some 0 /\ trunc MAXFLOAT64 = Some (2 ^ 53 - 1).
Proof.
  intro r. subst r.
  destruct (resolver_cases p) as [[Hn [Ha Hr]]|[f [err [Hin [Hs [Hp He]]]]]].
  - split; [split; [intros _; exact Ha|intros _; exact Hn]|].
    split; [intros _ f Hin; exact (Hr f Hin)|].
    split; [|split; reflexivity].
    intros err He. rewrite Hn in He. discriminate.
  - split.
    { split.
      - intro Hn. rewrite Hn in He. discriminate.
      - intro Ha. specialize (Ha f Hin Hs). rewrite Ha in Hp. discriminate. }
    split; [intro Hn; rewrite Hn in He; discriminate|].
    split; [|split; reflexivity].
    intros err' He'. rewrite He in He'. injection He' as <-.
    split; [exists f; repeat split; assumption|].
    intros doFoundAnything now1 now2.
    unfold SearchCommands, SearchActions, SearchAgents, SearchInvestigators.
    rewrite !(search_bad_filter _ _ p err He). repeat split; reflexivity.
Qed.

End Store.

(** C9.  The resolver checks no bound: whenever the identifier filters
    that are not the sentinel are accepted by the parser, it succeeds and
    the range of each such filter is [[v, v]] for the parsed [v], whatever
    [v] is (negative, fractional, beyond [2^53-1]); the ceiling only
    appears as the upper bound of a sentinel filter. *)
Theorem C9_no_bound_on_identifiers p :
  (forall f, In f identifier_filters -> accepted p f) ->
  snd (makeIDsFromParams ParseFloat p) = None /\
  forall f, In f identifier_filters ->
    (is_set p f = true ->
       range_of f (fst (makeIDsFromParams ParseFloat p)) =
       (fst (ParseFloat (value p f)), fst (ParseFloat (value p f)))) /\
    (is_set p f = false ->
       range_of f (fst (makeIDsFromParams ParseFloat p)) = (zero, MAXFLOAT64)).
Proof.
  intro Ha.
  destruct (resolver_cases p) as [[Hn [_ Hr]]|[f [err [Hin [Hs [Hp _]]]]]].
  - split; [exact Hn|]. intros f Hin. rewrite (Hr f Hin). unfold resolved.
    split; intros ->; reflexivity.
  - specialize (Ha f Hin Hs). rewrite Ha in Hp. discriminate.
Qed.

(** C10.  No routine reads [Report] or [Target]: parameter values that
    differ at most in these two fields have the same query string, the
    same resolved ranges and the same query text and bound values in each
    of the four routines. *)
Theorem C10_report_target_unread p p' :
  same_but_report_target p p' ->
  SearchParameters_String p = SearchParameters_String p' /\
  makeIDsFromParams ParseFloat p = makeIDsFromParams ParseFloat p' /\
  forall e ids doFoundAnything now1 now2,
    query_of StatusSuccess uint64_other e p ids doFoundAnything now1 now2 =
    query_of StatusSuccess uint64_other e p' ids doFoundAnything now1 now2.
Proof.
  destruct p, p'. unfold same_but_report_target.
  cbn [ActionID ActionName After AgentID AgentName Before CommandID FoundAnything
       InvestigatorID InvestigatorName Limit Offset Status ThreatFamily Type_].
  intros [? [? [? [? [? [? [? [? [? [? [? [? [? [? ?]]]]]]]]]]]]]]. subst.
  split; [reflexivity|]. split; [reflexivity|].
  intros e ids doFoundAnything now1 now2. destruct e; reflexivity.
Qed.

(** *** The found-anything clause *)





(** *** The status predicate of the actions search *)

Lemma known_In l s : known l s = true <-> In s l.
Proof.
  unfold known. rewrite existsb_exists. split.
  - intros [x [Hin Hx]]. apply String.eqb_eq in Hx. subst. exact Hin.
  - intro Hin. exists s. split; [exact Hin|apply String.eqb_refl].
Qed.



End Instance.

(** C7.  With a status filter, the query of [SearchActions] holds the
    predicate [action.status ILIKE $n]: its [WHERE] clause refers to the
    alias [action], which is neither the table the query selects from nor
    one it joins, while every other alias the clause refers to is. *)
Theorem C7_action_status_alias (uint64_other : float64 -> Z) p ids now1 now2 :
  Status p <> "%" ->
  let t := fst (SearchActions_query uint64_other p ids now1 now2) in
  let w := where_clause t in
  mentions "action.status ILIKE $" w = true /\
  In "action" (aliases (words w)) /\
  ~ In "action" (declared_tables Actions t) /\
  (forall al, In al (aliases (words w)) ->
     al = "action" \/ In al (declared_tables Actions t)).
Proof.
  intros Hs. cbv zeta.
  rewrite (actions_query_of "" uint64_other p ids false), query_text.
  generalize (every_active_spec _ status_alias_checked (active_of p false now1 now2)).
  unfold status_alias_check.
  assert (Ha : on_status (active_of p false now1 now2) = true).
  { unfold active_of, on_status, neq. apply negb_true_iff.
    apply String.eqb_neq. exact Hs. }
  rewrite Ha. cbn [negb orb].
  generalize (fst (skeleton Actions (active_of p false now1 now2))).
  intros t H. unfold status_alias_on in H. cbv zeta in H.
  repeat (apply andb_true_iff in H; let H' := fresh "H" in destruct H as [H H']).
  split; [exact H|]. split; [apply known_In; exact H2|].
  split.
  - intro Hin. apply known_In in Hin. apply negb_true_iff in H1. congruence.
  - intros al Hal. rewrite forallb_forall in H0. specialize (H0 al Hal).
    apply orb_true_iff in H0. destruct H0 as [H0|H0].
    + left. apply String.eqb_eq. exact H0.
    + right. apply known_In. exact H0.
Qed.

(** *** The default window *)

(** C3 (the code departs from the claim).  At 2026-10-31T00:00:00Z the
    query string of the default parameters runs from 2022-04-25 to
    2031-05-08, not from 2016 to 2036: the default search period, which
    the source documents as ten years, is 39600 hours, that is 1650 days,
    and [NewSearchParameters] sets the window to the present minus and
    plus that period. *)
Theorem C3_default_query_string :
  FormatRFC3339 Sample.now = "2026-10-31T00:00:00Z" /\
  SearchParameters_String (NewSearchParameters Sample.now Sample.now) =
    "type=action&after=2022-04-25T00:00:00Z&before=2031-05-08T00:00:00Z&limit=100" /\
  FormatRFC3339 (UTC (Add Sample.now (- (3652 * (24 * Hour))))) = "2016-10-31T00:00:00Z" /\
  FormatRFC3339 (UTC (Add Sample.now (3653 * (24 * Hour)))) = "2036-10-31T00:00:00Z" /\
  defaultSearchPeriod = 1650 * (24 * Hour) /\
  (forall now1 now2,
     instant (Before (NewSearchParameters now1 now2)) = instant now1 + 1650 * (24 * Hour) /\
     instant (After (NewSearchParameters now1 now2)) = instant now2 - 1650 * (24 * Hour)).
Proof.
  do 5 (split; [vm_compute; reflexivity|]).
  intros now1 now2. cbn [NewSearchParameters Before After UTC Add instant].
  replace defaultSearchPeriod with (1650 * (24 * Hour)) by (vm_compute; reflexivity). lia.
Qed.

(** *** Examples *)



Lemma C5_witness :
  let text p := fst (query_of Sample.StatusSuccess Sample.uint64_other Actions p
                       Sample.default_ids false Sample.now Sample.now) in
  let vals p := snd (query_of Sample.StatusSuccess Sample.uint64_other Actions p
                       Sample.default_ids false Sample.now Sample.now) in
  (defaultSearchPeriod <= defaultSearchPeriod /\
   Z.abs (instant (Before Sample.defaults) - (instant Sample.now + defaultSearchPeriod)) <= Hour /\
   Z.abs (instant (After Sample.defaults) - (instant Sample.now - defaultSearchPeriod)) <= Hour /\
   mentions (before_predicate Actions) (where_clause (text Sample.defaults)) = false /\
   mentions (after_predicate Actions) (where_clause (text Sample.defaults)) = false /\
   timestamps (vals Sample.defaults) = []) /\
  (defaultSearchPeriod <= Sample.ten_years /\
   Z.abs (instant (Before Sample.near_ten_years) - (instant Sample.now + Sample.ten_years))
     <= Hour /\
   Z.abs (instant (After Sample.near_ten_years) - (instant Sample.now - Sample.ten_years))
     <= Hour /\
   mentions (before_predicate Actions) (where_clause (text Sample.near_ten_years)) = false /\
   mentions (after_predicate Actions) (where_clause (text Sample.near_ten_years)) = false /\
   timestamps (vals Sample.near_ten_years) = []) /\
  (mentions (before_predicate Actions) (where_clause (text Sample.one_day)) = true /\
   mentions (after_predicate Actions) (where_clause (text Sample.one_day)) = true /\
   Hour < (instant Sample.now + Sample.ten_years) - instant (Before Sample.one_day) /\
   Hour < instant (After Sample.one_day) - (instant Sample.now - Sample.ten_years)).
Proof.
  cbv zeta.
  assert (H0 : defaultSearchPeriod <= defaultSearchPeriod) by (vm_compute; discriminate).
  assert (H1 : defaultSearchPeriod <= Sample.ten_years) by (vm_compute; discriminate).
  assert (B0 : Z.abs (instant (Before Sample.defaults) -
                      (instant Sample.now + defaultSearchPeriod)) <= Hour)
    by (vm_compute; discriminate).
  assert (A0 : Z.abs (instant (After Sample.defaults) -
                      (instant Sample.now - defaultSearchPeriod)) <= Hour)
    by (vm_compute; discriminate).
  assert (B1 : Z.abs (instant (Before Sample.near_ten_years) -
                      (instant Sample.now + Sample.ten_years)) <= Hour)
    by (vm_compute; discriminate).
  assert (A1 : Z.abs (instant (After Sample.near_ten_years) -
                      (instant Sample.now - Sample.ten_years)) <= Hour)
    by (vm_compute; discriminate).
  pose proof (C5_time_window Sample.StatusSuccess Sample.uint64_other Actions
                Sample.defaults Sample.default_ids false Sample.now Sample.now
                defaultSearchPeriod H0) as D.
  pose proof (C5_time_window Sample.StatusSuccess Sample.uint64_other Actions
                Sample.near_ten_years Sample.default_ids false Sample.now Sample.now
                Sample.ten_years H1) as N.
  pose proof (C5_time_window Sample.StatusSuccess Sample.uint64_other Actions
                Sample.one_day Sample.default_ids false Sample.now Sample.now
                Sample.ten_years H1) as O.
  cbv zeta in D, N, O.
  destruct D as [D1 [D2 _]]. destruct N as [N1 [N2 _]]. destruct O as [_ [_ [O3 O4]]].
  split; [|split].
  - split; [exact H0|]. split; [exact B0|]. split; [exact A0|].
    split; [exact (proj1 (D1 B0))|]. split; [exact (proj1 (D2 A0))|].
    rewrite (proj2 (D1 B0)). vm_compute. reflexivity.
  - split; [exact H1|]. split; [exact B1|]. split; [exact A1|].
    split; [exact (proj1 (N1 B1))|]. split; [exact (proj1 (N2 A1))|].
    rewrite (proj2 (N1 B1)). vm_compute. reflexivity.
  - assert (Mb : mentions (before_predicate Actions)
                   (where_clause (fst (query_of Sample.StatusSuccess Sample.uint64_other
                      Actions Sample.one_day Sample.default_ids false Sample.now
                      Sample.now))) = true) by (vm_compute; reflexivity).
    assert (Ma : mentions (after_predicate Actions)
                   (where_clause (fst (query_of Sample.StatusSuccess Sample.uint64_other
                      Actions Sample.one_day Sample.default_ids false Sample.now
                      Sample.now))) = true) by (vm_compute; reflexivity).
    split; [exact Mb|]. split; [exact Ma|]. split; [exact (O3 Mb) | exact (O4 Ma)].
Defined.


Lemma active_is_not_wildcard : Status (Sample.with_Status "active" Sample.defaults) <> "%".
Proof. cbn. discriminate. Qed.

Lemma C7_witness :
  mentions "action.status ILIKE $"
    (where_clause (fst (SearchActions_query Sample.uint64_other
       (Sample.with_Status "active" Sample.defaults) Sample.default_ids
       Sample.now Sample.now))) = true.
Proof.
  exact (proj1 (C7_action_status_alias Sample.uint64_other
                  (Sample.with_Status "active" Sample.defaults) Sample.default_ids
                  Sample.now Sample.now active_is_not_wildcard)).
Defined.

(** Identifier filters below zero, between two integers and beyond the
    ceiling. *)
Definition odd_identifiers : SearchParameters :=
  Sample.with_ActionID "1e300" (Sample.with_AgentID "-2.5" Sample.defaults).

Lemma odd_identifiers_accepted f :
  In f identifier_filters -> accepted Sample.ParseDecimal odd_identifiers f.
Proof.
  intros [<-|[<-|[<-|[<-|[]]]]]; intro H; vm_compute; vm_compute in H;
    try reflexivity; discriminate.
Qed.

Lemma C9_witness :
  snd (makeIDsFromParams Sample.ParseDecimal odd_identifiers) = None /\
  forall f, In f identifier_filters ->
    (is_set odd_identifiers f = true ->
       range_of f (fst (makeIDsFromParams Sample.ParseDecimal odd_identifiers)) =
       (fst (Sample.ParseDecimal (value odd_identifiers f)),
        fst (Sample.ParseDecimal (value odd_identifiers f)))) /\
    (is_set odd_identifiers f = false ->
       range_of f (fst (makeIDsFromParams Sample.ParseDecimal odd_identifiers)) =
       (zero, MAXFLOAT64)).
Proof.
  exact (C9_no_bound_on_identifiers Sample.ParseDecimal odd_identifiers
           odd_identifiers_accepted).
Defined.

(** The ranges of [odd_identifiers]: 1e300 lies above the ceiling, -2.5 is
    negative and fractional; both are taken as they are. *)
Lemma odd_identifiers_resolved :
  makeIDsFromParams Sample.ParseDecimal odd_identifiers =
    (mkIDs (S754_finite false 6724873095247260 944) (S754_finite false 6724873095247260 944)
           zero MAXFLOAT64
           (S754_finite true 5629499534213120 (-51)) (S754_finite true 5629499534213120 (-51))
           zero MAXFLOAT64, None) /\
  SFltb MAXFLOAT64 (S754_finite false 6724873095247260 944) = true /\
  SFltb (S754_finite true 5629499534213120 (-51)) zero = true /\
  trunc (S754_finite true 5629499534213120 (-51)) = Some (-2) /\
  fmt_f0 (S754_finite true 5629499534213120 (-51)) = "-2".
Proof. vm_compute. repeat split. Qed.

Lemma report_target_ignored :
  same_but_report_target Sample.defaults (Sample.with_Report_Target "weekly" "linux" Sample.defaults).
Proof. repeat split. Qed.

Lemma C10_witness :
  SearchParameters_String Sample.defaults =
  SearchParameters_String (Sample.with_Report_Target "weekly" "linux" Sample.defaults).
Proof.
  exact (proj1 (C10_report_target_unread Sample.StatusSuccess Sample.uint64_other
                  Sample.ParseDecimal Sample.defaults
                  (Sample.with_Report_Target "weekly" "linux" Sample.defaults)
                  report_target_ignored)).
Defined.

(** Scenario 5 of the specification: a non-numeric agent identifier. *)
Lemma non_numeric_agent_id :
  SearchAgents Sample.uint64_other Sample.ParseDecimal unit unit Sample.run
    (Sample.with_AgentID "abc" Sample.defaults) Sample.now Sample.now =
  mkOutcome [] (Some (BadFilter ErrSyntax)) [].
Proof. vm_compute. reflexivity. Qed.

End Properties.

(** ** Further properties of the file *)

Module Extras.

Import GoTime Float64 Text Searches SQLText Filters Skeleton JoinRules Checks.
Import QueryString Blocks JoinOrder.

(** *** Strings *)

Lemma append_assoc (a b c : string) : (a ++ b) ++ c = a ++ b ++ c.
Proof. induction a as [|x a IH]; cbn; [reflexivity|]. rewrite IH. reflexivity. Qed.

Lemma append_nil_r (a : string) : a ++ "" = a.
Proof. induction a as [|x a IH]; cbn; [reflexivity|]. rewrite IH. reflexivity. Qed.

Lemma length_append (a b : string) :
  String.length (a ++ b) = (String.length a + String.length b)%nat.
Proof. induction a as [|x a IH]; cbn; [reflexivity|]. rewrite IH. reflexivity. Qed.

Lemma tail_app l1 l2 : tail (l1 ++ l2) = tail l1 ++ tail l2.
Proof.
  induction l1 as [|kv l1 IH]; [reflexivity|].
  cbn [tail app]. rewrite IH, !append_assoc. reflexivity.
Qed.

Lemma concat_tail kv l : String.concat "&" (map render (kv :: l)) = render kv ++ tail l.
Proof.
  revert kv. induction l as [|kv' l IH]; intro kv.
  - cbn. symmetry. apply append_nil_r.
  - change (String.concat "&" (map render (kv :: kv' :: l)))
      with (render kv ++ "&" ++ String.concat "&" (map render (kv' :: l))).
    rewrite IH. reflexivity.
Qed.

(** One [if] statement of [String()]: [kq] is the literal it appends
    before the value. *)
Lemma optional_step (c : bool) (q kq k v : string) :
  kq = "&" ++ k ++ "=" ->
  (if c then q ++ kq ++ v else q) = q ++ tail (optional c k v).
Proof.
  intros ->. destruct c; cbn [optional tail render fst snd].
  - rewrite append_nil_r, !append_assoc. reflexivity.
  - symmetry. apply append_nil_r.
Qed.

Lemma String_pairs p :
  SearchParameters_String p = String.concat "&" (map render (pairs p)).
Proof.
  unfold pairs. cbn [app]. rewrite concat_tail. cbn [tail]. rewrite !tail_app.
  cbn [tail]. unfold SearchParameters_String. cbv zeta.
  rewrite (optional_step _ _ "&agentname=" "agentname" _ eq_refl).
  rewrite (optional_step _ _ "&agentid=" "agentid" _ eq_refl).
  rewrite (optional_step _ _ "&actionname=" "actionname" _ eq_refl).
  rewrite (optional_step _ _ "&actionid=" "actionid" _ eq_refl).
  rewrite (optional_step _ _ "&commandid=" "commandid" _ eq_refl).
  rewrite (optional_step _ _ "&investigatorid=" "investigatorid" _ eq_refl).
  rewrite (optional_step _ _ "&investigatorname=" "investigatorname" _ eq_refl).
  rewrite (optional_step _ _ "&threatfamily=" "threatfamily" _ eq_refl).
  rewrite (optional_step _ _ "&status=" "status" _ eq_refl).
  rewrite (optional_step _ _ "&offset=" "offset" _ eq_refl).
  generalize (tail (optional (neq (AgentName p) "%") "agentname" (AgentName p))).
  generalize (tail (optional (neq (AgentID p) inf) "agentid" (AgentID p))).
  generalize (tail (optional (neq (ActionName p) "%") "actionname" (ActionName p))).
  generalize (tail (optional (neq (ActionID p) inf) "actionid" (ActionID p))).
  generalize (tail (optional (neq (CommandID p) inf) "commandid" (CommandID p))).
  generalize (tail (optional (neq (InvestigatorID p) inf) "investigatorid" (InvestigatorID p))).
  generalize (tail (optional (neq (InvestigatorName p) "%") "investigatorname"
                      (InvestigatorName p))).
  generalize (tail (optional (neq (ThreatFamily p) "%") "threatfamily" (ThreatFamily p))).
  generalize (tail (optional (neq (Status p) "%") "status" (Status p))).
  generalize (tail (optional (negb (Float64.eqb (Offset p) (of_Z 0))) "offset"
                      (fmt_f0 (Offset p)))).
  generalize (Type_ p), (FormatRFC3339 (After p)), (FormatRFC3339 (Before p)),
    (fmt_f0 (Limit p)).
  intros ty af be li o st th ivn ivi co ai an gi gn.
  unfold render. cbn [fst snd]. rewrite !append_assoc. cbn [append]. reflexivity.
Qed.

(** X1.  [String()] is the list of keys and values joined by ampersands:
    [type], [after], [before], then every filter that differs from its
    sentinel, in the order agent name, agent id, action name, action id,
    command id, investigator id, investigator name, threat family, status,
    then [limit], then [offset] when it is not zero. *)
Theorem String_layout p :
  SearchParameters_String p = String.concat "&" (map render (pairs p)).
Proof. exact (String_pairs p). Qed.

(** X2.  Whenever they are made, the default parameters print as the
    type [action], the window from the present minus the default search
    period to the present plus that period, and the limit of 100: no
    filter and no offset. *)
Theorem default_query_string now1 now2 :
  SearchParameters_String (NewSearchParameters now1 now2) =
  "type=action&after=" ++ FormatRFC3339 (UTC (Add now2 (- defaultSearchPeriod))) ++
  "&before=" ++ FormatRFC3339 (UTC (Add now1 defaultSearchPeriod)) ++ "&limit=100".
Proof.
  unfold SearchParameters_String.
  cbn [NewSearchParameters Type_ After Before AgentName AgentID ActionName ActionID
       CommandID InvestigatorID InvestigatorName ThreatFamily Status Limit Offset].
  change (neq "%" "%") with false. change (neq inf inf) with false.
  change (fmt_f0 (of_Z 100)) with "100".
  change (negb (Float64.eqb (of_Z 0) (of_Z 0))) with false.
  cbv zeta iota.
  generalize (FormatRFC3339 (UTC (Add now2 (- defaultSearchPeriod)))),
    (FormatRFC3339 (UTC (Add now1 defaultSearchPeriod))).
  intros af be. rewrite !append_assoc. reflexivity.
Qed.

Lemma neq_longer (a b : string) (c d : ascii) :
  neq (a ++ String c (String d b)) "%" = true.
Proof.
  unfold neq. destruct a as [|x a]; cbn [append String.eqb].
  - destruct (Ascii.eqb c "%"); reflexivity.
  - destruct (Ascii.eqb x "%"); [|reflexivity]. destruct a; reflexivity.
Qed.

(** X3.  [String()] writes the values as they are, and a value may hold
    an ampersand: an agent name that ends in [&agentid=v] prints like
    that agent name with the agent id [v]. *)
Theorem String_values_verbatim p (a v : string) :
  AgentID p = inf -> neq a "%" = true -> neq v inf = true ->
  SearchParameters_String (with_AgentName (a ++ "&agentid=" ++ v) p) =
  SearchParameters_String (Sample.with_AgentID v (with_AgentName a p)).
Proof.
  intros Hid Ha Hv. rewrite !String_pairs. unfold pairs.
  cbn [with_AgentName Sample.with_AgentID Type_ After Before AgentName AgentID ActionName
       ActionID CommandID InvestigatorID InvestigatorName ThreatFamily Status Limit Offset].
  rewrite Hid, Ha, Hv.
  change (a ++ "&agentid=" ++ v) with (a ++ String "&" (String "a" ("gentid=" ++ v))).
  rewrite neq_longer. change (neq inf inf) with false.
  cbn [optional app]. rewrite !concat_tail. cbn [tail].
  unfold render. cbn [fst snd]. rewrite !append_assoc. reflexivity.
Qed.

(** *** The order of the joins *)

Lemma join_order_checked : every_entity join_order_check = true.
Proof. vm_compute. reflexivity. Qed.

Lemma usable_spec declared js :
  usable declared js = true ->
  forall js1 t l r js2, js = (js1 ++ (t, l, r) :: js2)%list ->
    (l = t /\ In r (declared ++ map joined js1)) \/
    (r = t /\ In l (declared ++ map joined js1)).
Proof.
  revert declared. induction js as [|[[t0 l0] r0] js IH]; intros declared H js1 t l r js2 E.
  - destruct js1; discriminate E.
  - cbn [usable] in H. apply andb_true_iff in H. destruct H as [H1 H2].
    destruct js1 as [|j js1]; cbn [app] in E; inversion E; subst; clear E.
    + cbn [map]. rewrite app_nil_r.
      apply orb_true_iff in H1. destruct H1 as [H1|H1];
        apply andb_true_iff in H1; destruct H1 as [Ha Hb];
        apply String.eqb_eq in Ha; apply Properties.known_In in Hb; auto.
    + destruct (IH _ H2 js1 t l r js2 eq_refl) as [[Ha Hb]|[Ha Hb]];
        cbn [map]; unfold joined at 1; cbn [fst];
        [left|right]; (split; [exact Ha|]);
        rewrite <- app_assoc in Hb; exact Hb.
Qed.

Section Platform.

Set Default Proof Using "Type".

Variable StatusSuccess : string.
Variable uint64_other : float64 -> Z.
Variable ParseFloat : string -> float64 * option NumError.

(** *** The resolver *)

(** X4.  The resolver reads the identifier filters in the order action,
    command, agent and investigator, and stops at the first one that is
    set and does not parse.  It then returns this filter's error together
    with unfinished ranges: those of the filters before it are resolved,
    the lower bound of the failing filter is whatever the parser returned
    beside the error and its upper bound is still the ceiling, and those
    of the filters after it are still zero. *)
Theorem resolver_first_failure p pre f post err :
  identifier_filters = (pre ++ f :: post)%list ->
  (forall g, In g pre -> Properties.accepted ParseFloat p g) ->
  is_set p f = true ->
  snd (ParseFloat (value p f)) = Some err ->
  let r := makeIDsFromParams ParseFloat p in
  snd r = Some err /\
  (forall g, In g pre -> range_of g (fst r) = Properties.resolved ParseFloat p g) /\
  range_of f (fst r) = (fst (ParseFloat (value p f)), MAXFLOAT64) /\
  (forall g, In g post -> range_of g (fst r) = (zero, zero)).
Proof.
  intros Hl Hpre Hf Herr. cbv zeta.
  unfold Properties.accepted, Properties.resolved, is_set in *.
  unfold makeIDsFromParams, resolve.
  unfold identifier_filters in Hl.
  destruct pre as [|g1 [|g2 [|g3 [|g4 pre]]]]; cbn [app] in Hl;
    try (destruct pre; discriminate Hl);
    injection Hl as; subst;
    cbn [value sentinel is_identifier In] in *;
    repeat match goal with
      | H : forall g, _ |- _ =>
          let H1 := fresh "A" in
          pose proof (H _ (or_introl eq_refl)) as H1;
          let H2 := fresh "H" in
          pose proof (fun g k => H g (or_intror k)) as H2; clear H;
          cbn [value sentinel is_identifier In] in H1, H2
      end;
    repeat match goal with
      | |- context [neq ?x inf] =>
          lazymatch goal with
          | E : neq x inf = _ |- _ => rewrite E
          | _ => destruct (neq x inf) eqn:?
          end
      | |- context [ParseFloat ?x] =>
          let v := fresh "v" in let e := fresh "e" in
          destruct (ParseFloat x) as [v e] eqn:?; cbn [fst snd] in *
      | A : true = true -> _ |- _ => specialize (A eq_refl); subst
      end;
    cbn [fst snd] in *; subst;
    (split; [reflexivity|]); (split; [|split]);
    try reflexivity;
    intros g Hg; cbn [In] in Hg;
    repeat (destruct Hg as [<-|Hg]; [cbn [value range_of sentinel is_identifier];
      repeat match goal with E : neq _ _ = _ |- _ => rewrite E end;
      repeat match goal with E : ParseFloat _ = _ |- _ => rewrite E end;
      reflexivity|]); try contradiction.
Qed.

(** *** What the query depends on *)

(** X5.  The text of a query is fixed by the outcomes of the tests the
    routine makes (which filters are set, which bounds of the window are
    in force, the found-anything switch): no value of the parameters
    reaches the text, they are only bound. *)
Theorem text_fixed_by_tests e p p' ids ids' d d' now1 now2 now1' now2' :
  active_of p d now1 now2 = active_of p' d' now1' now2' ->
  fst (query_of StatusSuccess uint64_other e p ids d now1 now2) =
  fst (query_of StatusSuccess uint64_other e p' ids' d' now1' now2').
Proof.
  intro H. rewrite !Properties.query_text, H. reflexivity.
Qed.

(** A block whose test fails leaves the builder as it is. *)
Lemma emit_skip {V} (b : Builder V) (c : Clause V) : c_if c = false -> emit b c = b.
Proof. unfold emit. intros ->. reflexivity. Qed.

Lemma emit_all_alike {V} (cs cs' : list (Clause V)) (b : Builder V) :
  Forall2 alike cs cs' -> emit_all cs b = emit_all cs' b.
Proof.
  intro H. revert b. induction H as [|c c' cs cs' [<-|[Hc Hc']] _ IH]; intro b.
  - reflexivity.
  - cbn [emit_all fold_left]. apply IH.
  - cbn [emit_all fold_left]. rewrite !emit_skip by assumption. apply IH.
Qed.

(** X6.  [Type] is read by [String()] only, and [FoundAnything] besides
    by the found-anything clause of [SearchCommands] only: parameter
    values that differ at most in these two fields resolve to the same
    ranges and give the same query text in every routine, and the same
    bound values wherever there is no found-anything clause or the two
    have the same [FoundAnything]. *)
Theorem type_and_found_unread p p' :
  same_but_type_found p p' ->
  makeIDsFromParams ParseFloat p = makeIDsFromParams ParseFloat p' /\
  forall e ids d now1 now2,
    fst (query_of StatusSuccess uint64_other e p ids d now1 now2) =
    fst (query_of StatusSuccess uint64_other e p' ids d now1 now2) /\
    (has_found e d = false \/ FoundAnything p = FoundAnything p' ->
     query_of StatusSuccess uint64_other e p ids d now1 now2 =
     query_of StatusSuccess uint64_other e p' ids d now1 now2).
Proof.
  destruct p, p'. unfold same_but_type_found.
  cbn [ActionID ActionName After AgentID AgentName Before CommandID FoundAnything
       InvestigatorID InvestigatorName Limit Offset Report Status Target ThreatFamily Type_].
  intros H. decompose [and] H. clear H. subst.
  split; [reflexivity|]. intros e ids d now1 now2. split.
  - rewrite !Properties.query_text. f_equal.
  - intros H.
    assert (Hc : has_found e d = false \/ FoundAnything0 = FoundAnything1)
      by (destruct H as [H|H]; [left; exact H | right; exact H]).
    clear H. unfold query_of.
    destruct e;
      [unfold SearchActions_query, SearchActions_clauses, SearchActions_threat
      |unfold SearchCommands_query, SearchCommands_assemble
      |unfold SearchAgents_query, SearchAgents_clauses
      |unfold SearchInvestigators_query, SearchInvestigators_clauses];
      unfold before_set, after_set;
      cbn [ActionID ActionName After AgentID AgentName Before CommandID FoundAnything
        InvestigatorID InvestigatorName Limit Offset Report Status Target ThreatFamily Type_];
      [reflexivity| |reflexivity|reflexivity].
    rewrite (emit_all_alike
      (SearchCommands_clauses StatusSuccess
         (mkSearchParameters ActionID1 ActionName1 After1 AgentID1 AgentName1 Before1
            CommandID1 FoundAnything0 InvestigatorID1 InvestigatorName1 Limit1 Offset1
            Report1 Status1 Target1 ThreatFamily1 Type_0) ids d now1 now2)
      (SearchCommands_clauses StatusSuccess
         (mkSearchParameters ActionID1 ActionName1 After1 AgentID1 AgentName1 Before1
            CommandID1 FoundAnything1 InvestigatorID1 InvestigatorName1 Limit1 Offset1
            Report1 Status1 Target1 ThreatFamily1 Type_1) ids d now1 now2)).
    + reflexivity.
    + unfold SearchCommands_clauses, before_set, after_set.
      cbn [ActionID ActionName After AgentID AgentName Before CommandID FoundAnything
        InvestigatorID InvestigatorName Limit Offset Report Status Target ThreatFamily Type_].
      destruct Hc as [Hc| ->].
      * destruct d; [discriminate Hc|].
        repeat (apply Forall2_cons;
          [first [left; reflexivity | right; split; reflexivity]|]).
        apply Forall2_nil.
      * repeat (apply Forall2_cons; [left; reflexivity|]). apply Forall2_nil.
Qed.

(** *** The time window of the defaults *)

(** X7.  Default parameters, made at [made1], [made2] and searched with
    at [now1], [now2], get the clause of the upper bound exactly when they
    are more than an hour old, and the clause of the lower bound exactly
    when the clock went back by more than an hour in between; used within
    the hour, they bind no timestamp. *)
Theorem default_window_drift e ids d made1 made2 now1 now2 :
  let p := NewSearchParameters made1 made2 in
  let q := query_of StatusSuccess uint64_other e p ids d now1 now2 in
  mentions (before_predicate e) (where_clause (fst q)) = (instant made1 + Hour <? instant now1) /\
  mentions (after_predicate e) (where_clause (fst q)) = (instant now2 + Hour <? instant made2) /\
  (instant now1 <= instant made1 + Hour -> instant made2 <= instant now2 + Hour ->
   timestamps (snd q) = []).
Proof.
  intros p q.
  destruct (Properties.window_facts StatusSuccess uint64_other e p ids d now1 now2)
    as [Hb [Ha Ht]].
  fold q in Hb, Ha, Ht.
  assert (Eb : before_set p now1 = (instant made1 + Hour <? instant now1)).
  { unfold before_set, GoTime.Before, Add, p.
    cbn [NewSearchParameters Before UTC Add instant].
    generalize defaultSearchPeriod, Hour. intros D H.
    destruct (Z.ltb_spec (instant made1 + D) (instant now1 + (D - H)));
      destruct (Z.ltb_spec (instant made1 + H) (instant now1)); try reflexivity; lia. }
  assert (Ea : after_set p now2 = (instant now2 + Hour <? instant made2)).
  { unfold after_set, GoTime.After, Add, p.
    cbn [NewSearchParameters After UTC Add instant].
    generalize defaultSearchPeriod, Hour. intros D H.
    destruct (Z.ltb_spec (instant now2 + - (D - H)) (instant made2 + - D));
      destruct (Z.ltb_spec (instant now2 + H) (instant made2)); try reflexivity; lia. }
  rewrite Hb, Ha, Ht, Eb, Ea. split; [reflexivity|]. split; [reflexivity|].
  intros H1 H2.
  destruct (Z.ltb_spec (instant made1 + Hour) (instant now1)); [lia|].
  destruct (Z.ltb_spec (instant now2 + Hour) (instant made2)); [lia|]. reflexivity.
Qed.

Lemma bare_skeleton e d :
  has_found e d = false ->
  where_clause (fst (skeleton e (nothing_set d))) = "" /\
  snd (skeleton e (nothing_set d)) = [SLimit; SOffset].
Proof.
  destruct e, d; intro H; try discriminate H; vm_compute; split; reflexivity.
Qed.

(** X8.  When no filter is set, no bound of the window is in force and
    there is no found-anything clause, nothing stands between [WHERE] and
    [GROUP BY] in the statement, and the limit and the offset are the only
    values bound. *)
Theorem empty_where_clause e p ids d now1 now2 :
  (forall f, is_set p f = false) ->
  before_set p now1 = false -> after_set p now2 = false ->
  has_found e d = false ->
  let q := query_of StatusSuccess uint64_other e p ids d now1 now2 in
  where_clause (fst q) = "" /\
  snd q = [VUint64 (uint64 uint64_other (Limit p)); VUint64 (uint64 uint64_other (Offset p))].
Proof.
  intros Hf Hb Ha Hd q. unfold q.
  rewrite Properties.query_text, Properties.query_vals.
  assert (E : active_of p d now1 now2 = nothing_set d).
  { unfold active_of, nothing_set. rewrite Hb, Ha.
    pose proof (Hf FActionID) as H1. pose proof (Hf FActionName) as H2.
    pose proof (Hf FAgentID) as H3. pose proof (Hf FAgentName) as H4.
    pose proof (Hf FCommandID) as H5. pose proof (Hf FInvestigatorID) as H6.
    pose proof (Hf FInvestigatorName) as H7. pose proof (Hf FStatus) as H8.
    pose proof (Hf FThreatFamily) as H9.
    unfold is_set in *. cbn [value sentinel is_identifier] in *.
    rewrite H1, H2, H3, H4, H5, H6, H7, H8, H9. reflexivity. }
  rewrite E. destruct (bare_skeleton e d Hd) as [Hw Hv].
  generalize dependent (skeleton e (nothing_set d)). intros s Hw Hv.
  rewrite Hw, Hv. split; reflexivity.
Qed.

(** *** The blocks of a routine *)

Lemma emit_all_app {V} (cs1 cs2 : list (Clause V)) (b : Builder V) :
  emit_all (cs1 ++ cs2) b = emit_all cs2 (emit_all cs1 b).
Proof. apply fold_left_app. Qed.

Lemma emit_extends {V} (b : Builder V) (c : Clause V) :
  exists t v, b_text (emit b c) = b_text b ++ t /\ b_vals (emit b c) = (b_vals b ++ v)%list.
Proof.
  unfold emit. destruct (c_if c).
  - destruct (c_and c && (0 <? b_valctr b)); cbn [b_text b_vals].
    + exists (" AND " ++ c_fmt c (b_valctr b)), (c_vals c).
      rewrite append_assoc. split; reflexivity.
    + exists (c_fmt c (b_valctr b)), (c_vals c). split; reflexivity.
  - exists "", []. rewrite append_nil_r, app_nil_r. split; reflexivity.
Qed.

Lemma emit_all_extends {V} (cs : list (Clause V)) (b : Builder V) :
  exists t v, b_text (emit_all cs b) = b_text b ++ t /\
              b_vals (emit_all cs b) = (b_vals b ++ v)%list.
Proof.
  revert b. induction cs as [|c cs IH]; intro b.
  - exists "", []. cbn [emit_all fold_left]. rewrite append_nil_r, app_nil_r.
    split; reflexivity.
  - cbn [emit_all fold_left]. destruct (IH (emit b c)) as [t [v [Ht Hv]]].
    destruct (emit_extends b c) as [t' [v' [Ht' Hv']]].
    exists (t' ++ t), (v' ++ v)%list. unfold emit_all in Ht, Hv.
    rewrite Ht, Hv, Ht', Hv', append_assoc, <- app_assoc. split; reflexivity.
Qed.

(** [valctr] counts the values bound, block after block. *)
Lemma emit_consistent {V} (b : Builder V) (c : Clause V) :
  well_formed c -> consistent b -> consistent (emit b c).
Proof.
  unfold well_formed, consistent, emit. intros Hc Hb.
  destruct (c_if c); [|exact Hb].
  cbn [b_valctr b_vals]. rewrite length_app, Nat2Z.inj_add, Hb, Hc. reflexivity.
Qed.

Lemma emit_all_consistent {V} (cs : list (Clause V)) (b : Builder V) :
  Forall well_formed cs -> consistent b -> consistent (emit_all cs b).
Proof.
  intro H. revert b. induction H as [|c cs Hc _ IH]; intros b Hb; [exact Hb|].
  cbn [emit_all fold_left]. apply IH. apply emit_consistent; assumption.
Qed.

Lemma emit_all_block {V} (pre post : list (Clause V)) (c : Clause V) (t0 : string) :
  c_if c = true -> Forall well_formed pre ->
  exists t1 t2 v1 v2,
    let b := emit_all (pre ++ c :: post) (mkBuilder t0 [] 0 no_joins) in
    let n := Z.of_nat (List.length v1) in
    b_text b = t1 ++ separator c n ++ c_fmt c n ++ t2 /\
    b_vals b = (v1 ++ c_vals c ++ v2)%list.
Proof.
  intros Hc Hpre. cbv zeta. rewrite emit_all_app. cbn [emit_all fold_left].
  pose proof (emit_all_consistent pre (mkBuilder t0 [] 0 no_joins) Hpre eq_refl) as Hn.
  fold (emit_all pre (mkBuilder t0 [] 0 no_joins)).
  generalize dependent (emit_all pre (mkBuilder t0 [] 0 no_joins)). intros b Hn.
  destruct (emit_all_extends post (emit b c)) as [t2 [v2 [Ht Hv]]].
  unfold emit_all in Ht, Hv.
  exists (b_text b), t2, (b_vals b), v2. rewrite Ht, Hv.
  unfold emit, separator. rewrite Hc. unfold consistent in Hn. rewrite <- Hn.
  cbn [b_text b_vals].
  destruct (c_and c && (0 <? b_valctr b));
    rewrite ?append_assoc, <- ?app_assoc; split; reflexivity.
Qed.

Lemma blocks_well_formed e p ids d now1 now2 :
  Forall well_formed (blocks_of StatusSuccess e p ids d now1 now2).
Proof.
  destruct e; unfold blocks_of, SearchCommands_clauses, SearchActions_clauses,
    SearchAgents_clauses, SearchInvestigators_clauses, SearchActions_threat;
    cbn [app]; repeat (apply Forall_cons; [reflexivity|]); apply Forall_nil.
Qed.

Ltac give_parts t1 t2 v1 v2 l o :=
  match goal with
  | |- context [?a1 ++ ?a2 ++ ?a3 ++ ?a4 ++ ?a5 ++ (t1 ++ ?s ++ ?f ++ t2) ++ ?z] =>
      exists (a1 ++ a2 ++ a3 ++ a4 ++ a5 ++ t1), (t2 ++ z), v1, (v2 ++ [l; o])%list
  | |- context [(t1 ++ ?s ++ ?f ++ t2) ++ ?z] =>
      exists t1, (t2 ++ z), v1, (v2 ++ [l; o])%list
  end.

(** X9.  Every block whose test succeeds is in the statement: its
    predicate stands in the text, after an [AND] when it is not the first
    one, with its parameters numbered from the number of values bound
    before it, and its values follow those values. *)
Theorem block_contributes e p ids d now1 now2 pre c post :
  blocks_of StatusSuccess e p ids d now1 now2 = (pre ++ c :: post)%list ->
  c_if c = true ->
  let q := query_of StatusSuccess uint64_other e p ids d now1 now2 in
  exists t1 t2 v1 v2,
    let n := Z.of_nat (List.length v1) in
    fst q = t1 ++ separator c n ++ c_fmt c n ++ t2 /\
    snd q = (v1 ++ c_vals c ++ v2)%list.
Proof.
  intros Hl Hc. cbv zeta.
  pose proof (blocks_well_formed e p ids d now1 now2) as Hw.
  rewrite Hl in Hw. apply Forall_app in Hw. destruct Hw as [Hw _].
  destruct e; unfold query_of;
    [unfold SearchActions_query, SearchActions_assemble;
     change (emit (emit_all (SearchActions_clauses p ids now1 now2) (mkBuilder "" [] 0 no_joins))
               (SearchActions_threat p))
       with (emit_all [SearchActions_threat p]
               (emit_all (SearchActions_clauses p ids now1 now2) (mkBuilder "" [] 0 no_joins)));
     rewrite <- emit_all_app;
     change (SearchActions_clauses p ids now1 now2 ++ [SearchActions_threat p])%list
       with (blocks_of StatusSuccess Actions p ids d now1 now2)
    |unfold SearchCommands_query, SearchCommands_assemble;
     change (SearchCommands_clauses StatusSuccess p ids d now1 now2)
       with (blocks_of StatusSuccess Commands p ids d now1 now2)
    |unfold SearchAgents_query, SearchAgents_assemble;
     change (SearchAgents_clauses p ids now1 now2)
       with (blocks_of StatusSuccess Agents p ids d now1 now2)
    |unfold SearchInvestigators_query, SearchInvestigators_assemble;
     change (SearchInvestigators_clauses p ids now1 now2)
       with (blocks_of StatusSuccess Investigators p ids d now1 now2)];
    cbv zeta; rewrite Hl;
    match goal with
    | |- context [emit_all (pre ++ c :: post) (mkBuilder ?t0 [] 0 no_joins)] =>
        destruct (emit_all_block pre post c t0 Hc Hw) as [t1 [t2 [v1 [v2 [Ht Hv]]]]];
        cbv zeta in Ht, Hv; cbn [fst snd]; rewrite Ht, Hv
    end;
    give_parts t1 t2 v1 v2 (VUint64 (uint64 uint64_other (Limit p)))
      (VUint64 (uint64 uint64_other (Offset p)));
    cbv zeta; rewrite ?append_assoc, <- ?app_assoc; split; reflexivity.
Qed.

(** *** The joins *)

(** X14.  The joins of every statement are those that stand before its
    [WHERE], and each can be made: its condition ties the table it brings
    in to the table searched or to a table joined before it. *)
Theorem joins_hang_together e p ids d now1 now2 :
  let text := fst (query_of StatusSuccess uint64_other e p ids d now1 now2) in
  map joined (joins_of text) = joined_tables text /\
  forall js1 t l r js2, joins_of text = (js1 ++ (t, l, r) :: js2)%list ->
    (l = t /\ In r (primary e :: map joined js1)) \/
    (r = t /\ In l (primary e :: map joined js1)).
Proof.
  cbv zeta. rewrite Properties.query_text.
  pose proof (Properties.every_entity_spec _ join_order_checked e
                (active_of p d now1 now2)) as H.
  unfold join_order_check in H. cbv zeta in H.
  generalize dependent (fst (skeleton e (active_of p d now1 now2))). intros text H.
  apply andb_true_iff in H. destruct H as [H1 H2].
  apply Properties.strings_eqb_eq in H1. split; [exact H1|].
  intros js1 t l r js2 E. exact (usable_spec [primary e] _ H2 js1 t l r js2 E).
Qed.

End Platform.

(** *** Running the statement and reading its rows *)

Section Reading.

Import Hydration.

Variables (Stmt Row S R : Type).
Variable Prepare : string -> result Stmt.
Variable Query : Stmt -> list Val -> result (Cursor Row).
Variable scan : Row -> result S.
Variable perform : Stage -> S -> result S.
Variable record : S -> R.

Local Abbreviation hydrate := (hydrate Row S R scan perform record).
Local Abbreviation read_rows := (read_rows Row S R scan perform record).
Local Abbreviation execute := (execute Stmt Row S R Prepare Query scan perform record).

Lemma read_rows_all e rows recs acc :
  Forall2 (fun row r => hydrate e row = Ok r) rows recs ->
  read_rows e rows acc = ((acc ++ recs)%list, None).
Proof.
  intro H. revert acc. induction H as [|row r rows recs Hr _ IH]; intro acc.
  - cbn [Hydration.read_rows]. rewrite app_nil_r. reflexivity.
  - cbn [Hydration.read_rows]. rewrite Hr, IH, <- app_assoc. reflexivity.
Qed.

Lemma read_rows_stop e good bad rest recs err acc :
  Forall2 (fun row r => hydrate e row = Ok r) good recs ->
  hydrate e bad = Err err ->
  read_rows e (good ++ bad :: rest) acc = ((acc ++ recs)%list, Some err).
Proof.
  intros H Hb. revert acc. induction H as [|row r rows recs Hr _ IH]; intro acc.
  - cbn [Hydration.read_rows app]. rewrite Hb, app_nil_r. reflexivity.
  - cbn [Hydration.read_rows app]. rewrite Hr, IH, <- app_assoc. reflexivity.
Qed.

(** X10.  When the statement prepares and runs and every row the cursor
    delivers is read, the routine returns one record per row, in order,
    and no error, whatever the cursor reports once its rows are
    exhausted: the error of [rows.Err()] is assigned to a variable of the
    last [if] statement and does not reach the result. *)
Theorem cursor_error_dropped e query vals stmt rows recs :
  Prepare query = Ok stmt ->
  Query stmt vals = Ok rows ->
  Forall2 (fun row r => hydrate e row = Ok r) (delivered rows) recs ->
  execute e query vals = (recs, None).
Proof.
  intros Hp Hq Hr. unfold Hydration.execute. rewrite Hp, Hq.
  rewrite (read_rows_all e _ recs [] Hr). reflexivity.
Qed.

(** X11.  The first row that cannot be read ends the routine: it returns
    the records of the rows before it together with the error of that
    row, and reads no further row. *)
Theorem first_bad_row_ends e query vals stmt rows good bad rest recs err :
  Prepare query = Ok stmt ->
  Query stmt vals = Ok rows ->
  delivered rows = (good ++ bad :: rest)%list ->
  Forall2 (fun row r => hydrate e row = Ok r) good recs ->
  hydrate e bad = Err err ->
  execute e query vals = (recs, Some err).
Proof.
  intros Hp Hq Hd Hr Hb. unfold Hydration.execute. rewrite Hp, Hq, Hd.
  rewrite (read_rows_stop e good bad rest recs err [] Hr Hb). reflexivity.
Qed.

Lemma perform_all_fails sts s msg :
  perform_all S perform sts s = Err msg ->
  exists st s' err, In st sts /\ perform st s' = Err err /\
                    msg = stage_message st ++ err ++ "'".
Proof.
  revert s. induction sts as [|st sts IH]; intros s H; [discriminate H|].
  cbn [perform_all] in H. unfold bind, wrap in H.
  destruct (perform st s) as [s1|err] eqn:E.
  - destruct (IH s1 H) as [st' [s' [err [Hin [Hp Hm]]]]].
    exists st', s', err. split; [right; exact Hin|]. split; assumption.
  - injection H as <-. exists st, s, err. split; [left; reflexivity|].
    split; [exact E | reflexivity].
Qed.

Lemma hydrate_fails e row msg :
  hydrate e row = Err msg ->
  (exists err, scan row = Err err /\ msg = scan_message e ++ err ++ "'") \/
  (exists st s err, In st (stages_of e) /\ perform st s = Err err /\
                    msg = stage_message st ++ err ++ "'").
Proof.
  unfold Hydration.hydrate, bind, wrap. destruct (scan row) as [s|err] eqn:E.
  - destruct (perform_all S perform (stages_of e) s) as [s'|m] eqn:P; [discriminate|].
    intro H. injection H as <-. right. exact (perform_all_fails _ _ _ P).
  - intro H. injection H as <-. left. exists err. split; reflexivity.
Qed.

Lemma read_rows_fails e rows acc msg :
  snd (read_rows e rows acc) = Some msg ->
  exists row, In row rows /\ hydrate e row = Err msg.
Proof.
  revert acc. induction rows as [|row rows IH]; intros acc H; [discriminate H|].
  cbn [Hydration.read_rows] in H. destruct (hydrate e row) as [r|err] eqn:E.
  - destruct (IH _ H) as [row' [Hin Hr]]. exists row'. split; [right; exact Hin | exact Hr].
  - cbn [snd] in H. injection H as <-. exists row. split; [left; reflexivity | exact E].
Qed.

(** X12.  An error of the routine past the resolver is one of four: the
    statement did not prepare (the message quotes the statement, and no
    record is returned), it did not run (no record either), a row did not
    scan, or one of the steps that follow the scan of a row failed, each
    with the message of the routine or of the step around the error of
    the store. *)
Theorem execute_errors e query vals msg :
  snd (execute e query vals) = Some msg ->
  (exists err, Prepare query = Err err /\ fst (execute e query vals) = [] /\
     msg = "Error while preparing search statement: '" ++ err ++ "' in '" ++ query ++ "'") \/
  (exists stmt err, Prepare query = Ok stmt /\ Query stmt vals = Err err /\
     fst (execute e query vals) = [] /\ msg = find_message e ++ err ++ "'") \/
  (exists stmt rows row, Prepare query = Ok stmt /\ Query stmt vals = Ok rows /\
     In row (delivered rows) /\
     ((exists err, scan row = Err err /\ msg = scan_message e ++ err ++ "'") \/
      (exists st s err, In st (stages_of e) /\ perform st s = Err err /\
         msg = stage_message st ++ err ++ "'"))).
Proof.
  unfold Hydration.execute. destruct (Prepare query) as [stmt|err] eqn:Hp.
  - destruct (Query stmt vals) as [rows|err] eqn:Hq.
    + destruct (read_rows e (delivered rows) []) as [found err] eqn:Hr.
      cbn [snd]. intros ->. right. right.
      destruct (read_rows_fails e (delivered rows) [] msg) as [row [Hin Hh]];
        [rewrite Hr; reflexivity|].
      exists stmt, rows, row. split; [reflexivity|]. split; [exact Hq|].
      split; [exact Hin|]. exact (hydrate_fails e row msg Hh).
    + cbn [fst snd]. intro H. injection H as <-. right. left.
      exists stmt, err. repeat split; first [reflexivity | assumption].
  - cbn [fst snd]. intro H. injection H as <-. left. exists err.
    repeat split; first [reflexivity | assumption].
Qed.

(** *** The calls on the store *)

Local Abbreviation perform_all_traced := (Hydration.perform_all_traced S perform).
Local Abbreviation hydrate_traced := (Hydration.hydrate_traced Row S R scan perform record).
Local Abbreviation read_rows_traced := (Hydration.read_rows_traced Row S R scan perform record).
Local Abbreviation execute_traced :=
  (Hydration.execute_traced Stmt Row S R Prepare Query scan perform record).

(** Tracing the calls does not change what is computed. *)
Lemma perform_all_erase sts s :
  fst (perform_all_traced sts s) = perform_all S perform sts s.
Proof.
  revert s. induction sts as [|st sts IH]; intro s; [reflexivity|].
  cbn [Hydration.perform_all_traced perform_all]. unfold bind.
  destruct (wrap (stage_message st) (perform st s)) as [s'|err]; [|reflexivity].
  rewrite <- IH. destruct (perform_all_traced sts s'). reflexivity.
Qed.

Lemma hydrate_erase e row : fst (hydrate_traced e row) = hydrate e row.
Proof.
  unfold Hydration.hydrate_traced, Hydration.hydrate, bind.
  destruct (wrap (scan_message e) (scan row)) as [s|err]; [|reflexivity].
  rewrite <- perform_all_erase. destruct (perform_all_traced (stages_of e) s) as [[s'|err] cs];
    reflexivity.
Qed.

Lemma read_rows_erase e rows acc : fst (read_rows_traced e rows acc) = read_rows e rows acc.
Proof.
  revert acc. induction rows as [|row rows IH]; intro acc; [reflexivity|].
  cbn [Hydration.read_rows_traced Hydration.read_rows]. rewrite <- hydrate_erase.
  destruct (hydrate_traced e row) as [[x|err] cs]; cbn [fst]; [|reflexivity].
  rewrite <- IH. destruct (read_rows_traced e rows (acc ++ [x])). reflexivity.
Qed.

Lemma execute_erase e query vals : fst (execute_traced e query vals) = execute e query vals.
Proof.
  unfold Hydration.execute_traced, Hydration.execute.
  destruct (Prepare query) as [stmt|err]; [|reflexivity].
  destruct (Query stmt vals) as [rows|err]; [|reflexivity].
  rewrite <- read_rows_erase. destruct (read_rows_traced e (delivered rows) []) as [[found err] cs].
  reflexivity.
Qed.

(** The calls of a row whose steps all succeed: its lookups. *)
Lemma perform_all_calls sts s s' :
  perform_all S perform sts s = Ok s' ->
  snd (perform_all_traced sts s) = map Looked (filter is_lookup sts).
Proof.
  revert s. induction sts as [|st sts IH]; intros s H; [reflexivity|].
  cbn [Hydration.perform_all_traced perform_all filter] in *. unfold bind in H.
  destruct (wrap (stage_message st) (perform st s)) as [s1|err]; [|discriminate H].
  specialize (IH s1 H). destruct (perform_all_traced sts s1) as [r cs]. cbn [snd] in *.
  rewrite IH. destruct (is_lookup st); reflexivity.
Qed.

Lemma hydrate_calls e row r :
  hydrate e row = Ok r ->
  snd (hydrate_traced e row) = map Looked (lookups_of e).
Proof.
  unfold Hydration.hydrate_traced, Hydration.hydrate, bind, lookups_of.
  destruct (wrap (scan_message e) (scan row)) as [s|err]; [|discriminate].
  destruct (perform_all S perform (stages_of e) s) as [s'|err] eqn:E; [|discriminate].
  intros _. pose proof (perform_all_calls _ _ _ E) as H.
  destruct (perform_all_traced (stages_of e) s) as [r' cs]. exact H.
Qed.

Lemma read_rows_calls e rows recs acc :
  Forall2 (fun row r => hydrate e row = Ok r) rows recs ->
  snd (read_rows_traced e rows acc) = flat_map (fun _ => map Looked (lookups_of e)) rows.
Proof.
  intro H. revert acc. induction H as [|row r rows recs Hr _ IH]; intro acc; [reflexivity|].
  cbn [Hydration.read_rows_traced flat_map].
  pose proof (hydrate_erase e row) as He. pose proof (hydrate_calls e row r Hr) as Hc.
  destruct (hydrate_traced e row) as [x cs]. cbn [fst snd] in He, Hc. subst x cs.
  rewrite Hr. specialize (IH (acc ++ [r])%list).
  destruct (read_rows_traced e rows (acc ++ [r])) as [out cs']. cbn [snd] in *.
  rewrite IH. reflexivity.
Qed.

Lemma length_lookups e (rows : list Row) :
  List.length (flat_map (fun _ => map Looked (lookups_of e)) rows) =
  (List.length (lookups_of e) * List.length rows)%nat.
Proof.
  induction rows as [|row rows IH]; cbn [flat_map List.length].
  - rewrite Nat.mul_0_r. reflexivity.
  - rewrite length_app, length_map, IH, Nat.mul_succ_r. apply Nat.add_comm.
Qed.

Section Whole.

Variable StatusSuccess : string.
Variable uint64_other : float64 -> Z.
Variable ParseFloat : string -> float64 * option NumError.

(** X13.  A whole search: when the identifier filters resolve, the
    statement built from the resolved ranges prepares and runs and every
    row is read, the routine returns the records of the rows without
    error.  Its calls on the store are then: the statement prepared, run
    with the bound values, and for every row, in order, the lookups of
    the routine, which are the action counters and the action
    investigators in [SearchCommands] and [SearchActions] and none in the
    other two: one statement and, for [N] rows, [2N] or no lookups. *)
Theorem search_reads_all e p d now1 now2 stmt rows recs :
  snd (makeIDsFromParams ParseFloat p) = None ->
  let q := query_of StatusSuccess uint64_other e p
             (fst (makeIDsFromParams ParseFloat p)) d now1 now2 in
  Prepare (fst q) = Ok stmt ->
  Query stmt (snd q) = Ok rows ->
  Forall2 (fun row r => hydrate e row = Ok r) (delivered rows) recs ->
  let out := search ParseFloat error (execute e)
               (fun ids => query_of StatusSuccess uint64_other e p ids d now1 now2) p in
  let traced := execute_traced e (fst q) (snd q) in
  records out = recs /\ failure out = None /\
  fst traced = execute e (fst q) (snd q) /\
  snd traced =
    Prepared (fst q) :: Ran (snd q) ::
    flat_map (fun _ => map Looked (lookups_of e)) (delivered rows) /\
  lookups_of e =
    match e with
    | Commands | Actions => [GetActionCounters; InvestigatorByActionID]
    | Agents | Investigators => []
    end /\
  List.length (snd traced) =
    (2 + match e with Commands | Actions => 2 | _ => 0 end * List.length recs)%nat.
Proof.
  intros Hids q Hp Hq Hr. cbv zeta.
  assert (Hc : snd (execute_traced e (fst q) (snd q)) =
               Prepared (fst q) :: Ran (snd q) ::
               flat_map (fun _ => map Looked (lookups_of e)) (delivered rows)).
  { unfold Hydration.execute_traced. rewrite Hp, Hq.
    pose proof (read_rows_calls e (delivered rows) recs [] Hr) as H.
    destruct (read_rows_traced e (delivered rows) []) as [o cs]. cbn [snd] in *.
    rewrite H. reflexivity. }
  assert (Hl : lookups_of e =
               match e with
               | Commands | Actions => [GetActionCounters; InvestigatorByActionID]
               | Agents | Investigators => []
               end) by (destruct e; reflexivity).
  assert (Ho : search ParseFloat error (execute e)
                 (fun ids => query_of StatusSuccess uint64_other e p ids d now1 now2) p =
               mkOutcome recs None [q]).
  { unfold search. unfold q in *. clear q Hc.
    destruct (makeIDsFromParams ParseFloat p) as [ids err]. cbn [fst snd] in *. subst err.
    destruct (query_of StatusSuccess uint64_other e p ids d now1 now2) as [query vals].
    cbn [fst snd] in *. unfold Hydration.execute. rewrite Hp, Hq.
    rewrite (read_rows_all e _ recs [] Hr). reflexivity. }
  rewrite Ho. cbn [records failure].
  split; [reflexivity|]. split; [reflexivity|]. split; [apply execute_erase|].
  split; [exact Hc|]. split; [exact Hl|].
  rewrite Hc. cbn [List.length]. rewrite length_lookups.
  rewrite (Forall2_length Hr). destruct e; reflexivity.
Qed.

End Whole.

End Reading.

(** *** Examples *)

Lemma String_values_verbatim_witness :
  SearchParameters_String (with_AgentName ("web1" ++ "&agentid=" ++ "7") Sample.defaults) =
  SearchParameters_String (Sample.with_AgentID "7" (with_AgentName "web1" Sample.defaults)).
Proof.
  exact (String_values_verbatim Sample.defaults "web1" "7" eq_refl eq_refl eq_refl).
Defined.

(** An action identifier that parses, and an agent identifier that does
    not. *)
Lemma action_12_accepted g :
  In g [FActionID; FCommandID] ->
  Properties.accepted Sample.ParseDecimal
    (Sample.with_ActionID "12" (Sample.with_AgentID "web1" Sample.defaults)) g.
Proof.
  intros [<-|[<-|[]]]; intro H; vm_compute; vm_compute in H; try reflexivity; discriminate.
Qed.

Lemma agent_web1_is_set :
  is_set (Sample.with_ActionID "12" (Sample.with_AgentID "web1" Sample.defaults)) FAgentID = true.
Proof. vm_compute. reflexivity. Qed.

Lemma agent_web1_rejected :
  snd (Sample.ParseDecimal
         (value (Sample.with_ActionID "12" (Sample.with_AgentID "web1" Sample.defaults))
            FAgentID)) = Some ErrSyntax.
Proof. vm_compute. reflexivity. Qed.

Lemma resolver_first_failure_witness :
  let p := Sample.with_ActionID "12" (Sample.with_AgentID "web1" Sample.defaults) in
  let r := makeIDsFromParams Sample.ParseDecimal p in
  snd r = Some ErrSyntax /\
  (forall g, In g [FActionID; FCommandID] ->
     range_of g (fst r) = Properties.resolved Sample.ParseDecimal p g) /\
  range_of FAgentID (fst r) = (fst (Sample.ParseDecimal (value p FAgentID)), MAXFLOAT64) /\
  (forall g, In g [FInvestigatorID] -> range_of g (fst r) = (zero, zero)).
Proof.
  exact (resolver_first_failure Sample.ParseDecimal
           (Sample.with_ActionID "12" (Sample.with_AgentID "web1" Sample.defaults))
           [FActionID; FCommandID] FAgentID [FInvestigatorID] ErrSyntax
           eq_refl action_12_accepted agent_web1_is_set agent_web1_rejected).
Defined.

(** Two status filters, one of them with quotes in it. *)
Lemma same_tests :
  active_of (Sample.with_Status "active" Sample.defaults) false Sample.now Sample.now =
  active_of (Sample.with_Status "' OR '1'='1" Sample.defaults) false Sample.now Sample.now.
Proof. vm_compute. reflexivity. Qed.

Lemma text_fixed_by_tests_witness :
  fst (query_of Sample.StatusSuccess Sample.uint64_other Agents
         (Sample.with_Status "active" Sample.defaults) Sample.default_ids false
         Sample.now Sample.now) =
  fst (query_of Sample.StatusSuccess Sample.uint64_other Agents
         (Sample.with_Status "' OR '1'='1" Sample.defaults) Sample.default_ids false
         Sample.now Sample.now).
Proof.
  exact (text_fixed_by_tests Sample.StatusSuccess Sample.uint64_other Agents
           (Sample.with_Status "active" Sample.defaults)
           (Sample.with_Status "' OR '1'='1" Sample.defaults)
           Sample.default_ids Sample.default_ids false false
           Sample.now Sample.now Sample.now Sample.now same_tests).
Defined.

Lemma type_and_found_changed :
  same_but_type_found Sample.defaults (with_Type_FoundAnything "command" true Sample.defaults).
Proof. repeat split. Qed.

Lemma type_and_found_unread_witness :
  makeIDsFromParams Sample.ParseDecimal Sample.defaults =
  makeIDsFromParams Sample.ParseDecimal (with_Type_FoundAnything "command" true Sample.defaults).
Proof.
  exact (proj1 (type_and_found_unread Sample.StatusSuccess Sample.uint64_other
                  Sample.ParseDecimal Sample.defaults
                  (with_Type_FoundAnything "command" true Sample.defaults)
                  type_and_found_changed)).
Defined.

Lemma defaults_set_nothing f : is_set Sample.defaults f = false.
Proof. destruct f; reflexivity. Qed.

Lemma defaults_window_open :
  before_set Sample.defaults Sample.now = false /\ after_set Sample.defaults Sample.now = false.
Proof. split; vm_compute; reflexivity. Qed.

Lemma empty_where_clause_witness :
  let q := query_of Sample.StatusSuccess Sample.uint64_other Actions Sample.defaults
             Sample.default_ids false Sample.now Sample.now in
  where_clause (fst q) = "" /\
  snd q = [VUint64 (uint64 Sample.uint64_other (Limit Sample.defaults));
           VUint64 (uint64 Sample.uint64_other (Offset Sample.defaults))].
Proof.
  exact (empty_where_clause Sample.StatusSuccess Sample.uint64_other Actions Sample.defaults
           Sample.default_ids false Sample.now Sample.now defaults_set_nothing
           (proj1 defaults_window_open) (proj2 defaults_window_open) eq_refl).
Defined.

Lemma blocks_42 :
  let l := blocks_of Sample.StatusSuccess Commands action_42 ids_42 false
             Sample.now Sample.now in
  l = (firstn 4 l ++ block_42 :: skipn 5 l)%list.
Proof. vm_compute. reflexivity. Qed.

Lemma block_contributes_witness :
  let q := query_of Sample.StatusSuccess Sample.uint64_other Commands action_42 ids_42 false
             Sample.now Sample.now in
  exists t1 t2 v1 v2,
    let n := Z.of_nat (List.length v1) in
    fst q = t1 ++ separator block_42 n ++ c_fmt block_42 n ++ t2 /\
    snd q = (v1 ++ c_vals block_42 ++ v2)%list.
Proof.
  exact (block_contributes Sample.StatusSuccess Sample.uint64_other Commands action_42 ids_42
           false Sample.now Sample.now _ block_42 _ blocks_42 eq_refl).
Defined.

(** The example store. *)
Abbreviation sample_hydrate :=
  (Hydration.hydrate nat nat nat Hydration.Example.scan Hydration.Example.perform
     Hydration.Example.record).

Abbreviation sample_execute rows :=
  (Hydration.execute string nat nat nat Hydration.Example.Prepare
     (Hydration.Example.Query rows) Hydration.Example.scan Hydration.Example.perform
     Hydration.Example.record).

Abbreviation sample_execute_traced rows :=
  (Hydration.execute_traced string nat nat nat Hydration.Example.Prepare
     (Hydration.Example.Query rows) Hydration.Example.scan Hydration.Example.perform
     Hydration.Example.record).

Lemma rows_1_3_read e :
  Forall2 (fun row r => sample_hydrate e row = Hydration.Ok r) [1; 3]%nat [1; 3]%nat.
Proof. destruct e; repeat constructor. Qed.

Lemma row_1_read e :
  Forall2 (fun row r => sample_hydrate e row = Hydration.Ok r) [1]%nat [1]%nat.
Proof. destruct e; repeat constructor. Qed.

Lemma cursor_error_dropped_witness :
  Hydration.final (Hydration.mkCursor [1; 3]%nat (Some "connection reset")) =
    Some "connection reset" /\
  sample_execute [1; 3]%nat Commands "SELECT 1;" [] = ([1; 3]%nat, None).
Proof.
  split; [reflexivity|].
  exact (cursor_error_dropped string nat nat nat Hydration.Example.Prepare
           (Hydration.Example.Query [1; 3]%nat) Hydration.Example.scan
           Hydration.Example.perform Hydration.Example.record Commands "SELECT 1;" []
           "SELECT 1;" (Hydration.mkCursor [1; 3]%nat (Some "connection reset")) [1; 3]%nat
           eq_refl eq_refl (rows_1_3_read Commands)).
Defined.

Lemma first_bad_row_ends_witness :
  sample_execute [1; 2; 3]%nat Agents "SELECT 1;" [] =
  ([1]%nat,
   Some "Failed to retrieve agent data: 'converting NULL to string is unsupported'").
Proof.
  exact (first_bad_row_ends string nat nat nat Hydration.Example.Prepare
           (Hydration.Example.Query [1; 2; 3]%nat) Hydration.Example.scan
           Hydration.Example.perform Hydration.Example.record Agents "SELECT 1;" []
           "SELECT 1;" (Hydration.mkCursor [1; 2; 3]%nat (Some "connection reset"))
           [1]%nat 2%nat [3]%nat [1]%nat _ eq_refl eq_refl eq_refl (row_1_read Agents) eq_refl).
Defined.

Lemma row_2_fails :
  snd (sample_execute [1; 2; 3]%nat Agents "SELECT 1;" []) =
  Some "Failed to retrieve agent data: 'converting NULL to string is unsupported'".
Proof. reflexivity. Qed.

Lemma execute_errors_witness :
  let msg := "Failed to retrieve agent data: 'converting NULL to string is unsupported'" in
  let run := sample_execute [1; 2; 3]%nat Agents "SELECT 1;" [] in
  (exists err, Hydration.Example.Prepare "SELECT 1;" = Hydration.Err err /\ fst run = [] /\
     msg = "Error while preparing search statement: '" ++ err ++ "' in '" ++ "SELECT 1;" ++ "'") \/
  (exists stmt err, Hydration.Example.Prepare "SELECT 1;" = Hydration.Ok stmt /\
     Hydration.Example.Query [1; 2; 3]%nat stmt [] = Hydration.Err err /\
     fst run = [] /\ msg = Hydration.find_message Agents ++ err ++ "'") \/
  (exists stmt rows row, Hydration.Example.Prepare "SELECT 1;" = Hydration.Ok stmt /\
     Hydration.Example.Query [1; 2; 3]%nat stmt [] = Hydration.Ok rows /\
     In row (Hydration.delivered rows) /\
     ((exists err, Hydration.Example.scan row = Hydration.Err err /\
         msg = Hydration.scan_message Agents ++ err ++ "'") \/
      (exists st s err, In st (Hydration.stages_of Agents) /\
         Hydration.Example.perform st s = Hydration.Err err /\
         msg = Hydration.stage_message st ++ err ++ "'"))).
Proof.
  exact (execute_errors string nat nat nat Hydration.Example.Prepare
           (Hydration.Example.Query [1; 2; 3]%nat) Hydration.Example.scan
           Hydration.Example.perform Hydration.Example.record Agents "SELECT 1;" [] _
           row_2_fails).
Defined.

Lemma defaults_resolve : snd (makeIDsFromParams Sample.ParseDecimal Sample.defaults) = None.
Proof. vm_compute. reflexivity. Qed.

Lemma search_reads_all_witness :
  let q := query_of Sample.StatusSuccess Sample.uint64_other Commands Sample.defaults
             (fst (makeIDsFromParams Sample.ParseDecimal Sample.defaults)) false
             Sample.now Sample.now in
  let out := search Sample.ParseDecimal Hydration.error (sample_execute [1; 3]%nat Commands)
               (fun ids => query_of Sample.StatusSuccess Sample.uint64_other Commands
                             Sample.defaults ids false Sample.now Sample.now)
               Sample.defaults in
  records out = [1; 3]%nat /\ failure out = None /\
  snd (sample_execute_traced [1; 3]%nat Commands (fst q) (snd q)) =
    [Hydration.Prepared (fst q); Hydration.Ran (snd q);
     Hydration.Looked Hydration.GetActionCounters;
     Hydration.Looked Hydration.InvestigatorByActionID;
     Hydration.Looked Hydration.GetActionCounters;
     Hydration.Looked Hydration.InvestigatorByActionID] /\
  List.length (snd (sample_execute_traced [1; 3]%nat Commands (fst q) (snd q))) = 6%nat.
Proof.
  cbv zeta.
  pose proof (search_reads_all string nat nat nat Hydration.Example.Prepare
           (Hydration.Example.Query [1; 3]%nat) Hydration.Example.scan
           Hydration.Example.perform Hydration.Example.record
           Sample.StatusSuccess Sample.uint64_other Sample.ParseDecimal Commands Sample.defaults
           false Sample.now Sample.now _ (Hydration.mkCursor [1; 3]%nat (Some "connection reset"))
           [1; 3]%nat defaults_resolve eq_refl eq_refl (rows_1_3_read Commands)) as H.
  cbv zeta in H. destruct H as [H1 [H2 [_ [H3 [_ H4]]]]].
  split; [exact H1|]. split; [exact H2|]. split; [exact H3 | exact H4].
Defined.

End Extras.
